(** * The Trådfri codec of homebridge-mqttthing ([tradfri-codec.js])

    A shallow embedding of the codec and of the fragment of ECMAScript it
    runs on, followed by the properties of its encode/decode pairs.

    - Module [JS]: numbers (IEEE binary64, Rocq's primitive floats),
      values, property access, the conversions [ToBoolean], [ToNumber],
      [ToString], loose equality, [Math.round], [String.prototype.split],
      [Array.prototype.join], [JSON.stringify] and [JSON.parse].
    - Module [Codec]: [exports.init] and the four property codecs.
    - The theorems. *)

From Stdlib Require Import ZArith List String Ascii Lia Bool.
From Stdlib Require Import DecimalString DecimalZ.
From Stdlib Require Import Floats.PrimFloat Floats.SpecFloat Floats.FloatOps.
Import ListNotations.
Set Warnings "-inexact-float,-register-all".
Open Scope string_scope.
Open Scope list_scope.
Open Scope Z_scope.

(* ================================================================== *)
(** * The ECMAScript fragment *)
(* ================================================================== *)

Module JS.

(** ** Completions

    A computation returns normally, throws, or leaves the fragment of the
    built-ins that is modelled here ([Unmodelled]: the string is a numeric
    literal with a fraction, an exponent or a radix prefix, the number to
    print is not integral, ...). *)

Inductive error : Set := TypeError.

Inductive outcome (A : Type) : Type :=
| Normal (a : A)
| Throw (e : error)
| Unmodelled.
Arguments Normal {A} a.
Arguments Throw {A} e.
Arguments Unmodelled {A}.

Definition obind {A B} (c : outcome A) (k : A -> outcome B) : outcome B :=
  match c with
  | Normal a => k a
  | Throw e => Throw e
  | Unmodelled => Unmodelled
  end.

Declare Scope outcome_scope.
Delimit Scope outcome_scope with outcome.
Notation "x <- c ;; k" := (obind c (fun x => k))
  (at level 61, c at next level, right associativity) : outcome_scope.

(** ** Numbers *)

Definition number := float.
Bind Scope float_scope with number.

(** The number of an integer: the integer itself below [2^53] in
    magnitude, where every integer is a number, and the nearest number
    (ties to even) beyond. *)
Definition number_of_Z (z : Z) : number :=
  if Z.abs z <? 9007199254740992
  then (if z <? 0 then (- of_uint63 (Uint63Axioms.of_Z (- z)))%float
        else of_uint63 (Uint63Axioms.of_Z z))
  else SF2Prim (binary_normalize prec emax z 0 false).

(** The integer a number is, when it is one. *)
Definition Z_of_number (x : number) : option Z :=
  match Prim2SF x with
  | S754_zero _ => Some 0
  | S754_finite s m e =>
      let sm := if s then Z.neg m else Z.pos m in
      if 0 <=? e then Some (Z.shiftl sm e)
      else
        let n := Z.shiftr sm (- e) in
        if Z.shiftl n (- e) =? sm then Some n else None
  | _ => None
  end.

(** [Math.round]: the integral number closest to [x], the one toward
    +∞ on a tie; NaN, the infinities, the zeros and integral numbers are
    returned as they are, and a result of zero keeps the sign of [x]. For
    [x = sm * 2^e] with [e < 0] the result is [floor (x + 1/2)], that is
    [(2 * sm + 2^(-e)) / 2^(-e + 1)] rounded down. *)
Definition Math_round (x : number) : number :=
  match Prim2SF x with
  | S754_finite s m e =>
      if 0 <=? e then x
      else
        let sm := if s then Z.neg m else Z.pos m in
        let n := Z.shiftr (Z.shiftl sm 1 + Z.shiftl 1 (- e)) (- e + 1) in
        if n =? 0 then (if s then neg_zero else zero) else number_of_Z n
  | _ => x
  end.

(** ** JSON texts and values

    A JSON text is represented by its syntax tree, and a numeral by the
    number it denotes: a wire message is a [json], never a raw character
    string, so texts that do not parse are outside the model. *)

Inductive json : Type :=
| JNull
| JBool (b : bool)
| JNumber (n : number)
| JString (s : string)
| JArray (elements : list json)
| JObject (members : list (string * json)).

Inductive value : Type :=
| VUndefined
| VNull
| VBool (b : bool)
| VNumber (n : number)
| VString (s : string)
| VArray (elements : list value)
| VObject (fields : list (string * value)).

(** ** Objects as ordered property lists *)

Section Properties.
Context {A : Type}.

Fixpoint lookup (k : string) (o : list (string * A)) : option A :=
  match o with
  | [] => None
  | (k', a) :: o' => if String.eqb k k' then Some a else lookup k o'
  end.

(** Defining a property that exists replaces its value in place. *)
Fixpoint define (k : string) (a : A) (o : list (string * A)) : list (string * A) :=
  match o with
  | [] => [(k, a)]
  | (k', a') :: o' =>
      if String.eqb k k' then (k, a) :: o' else (k', a') :: define k a o'
  end.

(** An object literal (or the members of a JSON object) in source order. *)
Definition object_of (kvs : list (string * A)) : list (string * A) :=
  fold_left (fun o kv => define (fst kv) (snd kv) o) kvs [].
End Properties.

(** [v.k] for the property names the codec reads ([state], [brightness],
    [color_temp], [color], [x], [y], [topic], [property], [name]), none of
    which a prototype of a primitive or of an array defines. *)
Definition get (v : value) (k : string) : outcome value :=
  match v with
  | VUndefined | VNull => Throw TypeError
  | VObject fields =>
      Normal (match lookup k fields with Some a => a | None => VUndefined end)
  | _ => Normal VUndefined
  end.

(** ** Conversions *)

Definition ToBoolean (v : value) : bool :=
  match v with
  | VUndefined | VNull => false
  | VBool b => b
  | VNumber n => negb (is_zero n || is_nan n)
  | VString s => negb (String.eqb s "")
  | VArray _ | VObject _ => true
  end.

Fixpoint string_forallb (p : ascii -> bool) (s : string) : bool :=
  match s with
  | EmptyString => true
  | String c r => p c && string_forallb p r
  end.

Definition is_digit (c : ascii) : bool :=
  let n := N_of_ascii c in (48 <=? n)%N && (n <=? 57)%N.

Definition is_ascii (c : ascii) : bool := (N_of_ascii c <? 128)%N.

(** TAB, LF, VT, FF, CR and SP. *)
Definition is_white_space (c : ascii) : bool :=
  let n := N_of_ascii c in ((9 <=? n)%N && (n <=? 13)%N) || (n =? 32)%N.

Fixpoint trim_left (s : string) : string :=
  match s with
  | String c r => if is_white_space c then trim_left r else s
  | EmptyString => EmptyString
  end.

Fixpoint trim_right (s : string) : string :=
  match s with
  | EmptyString => EmptyString
  | String c r =>
      match trim_right r with
      | EmptyString => if is_white_space c then EmptyString else String c EmptyString
      | r' => String c r'
      end
  end.

Definition trim (s : string) : string := trim_left (trim_right s).

(** The number of a signed run of decimal digits; a zero keeps the sign. *)
Definition signed (neg : bool) (n : Z) : number :=
  if neg then (if n =? 0 then neg_zero else number_of_Z (- n)) else number_of_Z n.

(** [StringToNumber]: the empty string and white space are [+0]; a signed
    run of decimal digits and [Infinity] are their number; a string without
    any digit is otherwise NaN. The other numeric literals (fraction,
    exponent, radix prefix) and non-ASCII strings are not modelled. *)
Definition StringToNumber (s : string) : outcome number :=
  if negb (string_forallb is_ascii s) then Unmodelled
  else
    match trim s with
    | EmptyString => Normal zero
    | String c r as t =>
        let '(neg, body) :=
          if Ascii.eqb c "-" then (true, r)
          else if Ascii.eqb c "+" then (false, r) else (false, t) in
        match NilZero.uint_of_string body with
        | Some d => Normal (signed neg (Z.of_uint d))
        | None =>
            if String.eqb body "Infinity"
            then Normal (if neg then neg_infinity else infinity)
            else if string_forallb (fun c => negb (is_digit c)) body
                 then Normal nan
                 else Unmodelled
        end
    end.

(** [Number::toString] of NaN, the infinities and the integers below
    [10^21] in magnitude. *)
Definition Number_toString (x : number) : outcome string :=
  if is_nan x then Normal "NaN"
  else if is_infinity x then Normal (if get_sign x then "-Infinity" else "Infinity")
  else
    match Z_of_number x with
    | Some n =>
        if Z.abs n <? 10 ^ 21
        then Normal (NilZero.string_of_int (Z.to_int n))
        else Unmodelled
    | None => Unmodelled
    end.

Fixpoint concat_with (sep : string) (l : list string) : string :=
  match l with
  | [] => ""
  | [s] => s
  | s :: l' => (s ++ sep ++ concat_with sep l')%string
  end.

Fixpoint sequence {A} (l : list (outcome A)) : outcome (list A) :=
  match l with
  | [] => Normal []
  | c :: l' =>
      (a <- c ;; r <- sequence l' ;; Normal (a :: r))%outcome
  end.

(** [ToString]; an array is its elements joined by commas, where
    [undefined] and [null] elements are empty. A value has no callable
    member, and an object is a plain one: its conversion to a primitive
    finds [Object.prototype.toString], which answers ["[object Object]"],
    unless the object has an own property [toString]; that one is not
    callable, [valueOf] gives no primitive either, and the conversion
    throws a [TypeError]. *)
Fixpoint ToString (v : value) : outcome string :=
  match v with
  | VUndefined => Normal "undefined"
  | VNull => Normal "null"
  | VBool b => Normal (if b then "true" else "false")
  | VNumber n => Number_toString n
  | VString s => Normal s
  | VArray l =>
      (parts <- sequence (map (fun e =>
                  match e with
                  | VUndefined | VNull => Normal ""
                  | _ => ToString e
                  end) l) ;;
       Normal (concat_with "," parts))%outcome
  | VObject fields =>
      match lookup "toString" fields with
      | Some _ => Throw TypeError
      | None => Normal "[object Object]"
      end
  end.

(** Whether [ToString] completes, which it does unless it meets an object
    with an own [toString]; the characters it produces for a number that is
    not integral are not modelled, its completion is. *)
Fixpoint convertible (v : value) : bool :=
  match v with
  | VArray l =>
      forallb (fun e =>
        match e with
        | VUndefined | VNull => true
        | _ => convertible e
        end) l
  | VObject fields =>
      match lookup "toString" fields with
      | Some _ => false
      | None => true
      end
  | _ => true
  end.

(** [Array.prototype.join] on an array value. *)
Definition join (v : value) (sep : string) : outcome string :=
  match v with
  | VArray l =>
      (parts <- sequence (map (fun e =>
                  match e with
                  | VUndefined | VNull => Normal ""
                  | _ => ToString e
                  end) l) ;;
       Normal (concat_with sep parts))%outcome
  | VUndefined | VNull => Throw TypeError
  | _ => Throw TypeError
  end.

Definition ToNumber (v : value) : outcome number :=
  match v with
  | VUndefined => Normal nan
  | VNull => Normal zero
  | VBool b => Normal (if b then one else zero)
  | VNumber n => Normal n
  | VString s => StringToNumber s
  | VArray _ | VObject _ => (s <- ToString v ;; StringToNumber s)%outcome
  end.

(** [v == s] for a string [s] (IsLooselyEqual). *)
Definition loose_eq_string (v : value) (s : string) : outcome bool :=
  match v with
  | VUndefined | VNull => Normal false
  | VString t => Normal (String.eqb t s)
  | VBool _ | VNumber _ =>
      (x <- ToNumber v ;; y <- StringToNumber s ;; Normal (x =? y)%float)%outcome
  | VArray _ | VObject _ =>
      (t <- ToString v ;; Normal (String.eqb t s))%outcome
  end.

(** [s.split(",")]. *)
Fixpoint split (s : string) : list string :=
  match s with
  | EmptyString => [EmptyString]
  | String c r =>
      if Ascii.eqb c ","
      then EmptyString :: split r
      else match split r with
           | h :: t => String c h :: t
           | [] => [String c EmptyString]
           end
  end.

(** [a[i]] on the result of [split]. *)
Definition index (a : list string) (i : nat) : value :=
  match nth_error a i with
  | Some s => VString s
  | None => VUndefined
  end.

(** ** JSON *)

(** A number serializes as its shortest numeral, which denotes it again;
    the zeros both as [0], and NaN and the infinities as [null]. *)
Definition json_of_number (n : number) : json :=
  if is_finite n then JNumber (if is_zero n then zero else n) else JNull.

(** [SerializeJSONProperty]: [None] is [undefined]. Properties whose value
    is [undefined] are left out; such elements of an array are [null]. The
    members come in the order of the property list, which is the order of
    JavaScript for names that are not array indices, as all names of the
    codec's literals are. *)
Fixpoint JSON_stringify (v : value) : option json :=
  match v with
  | VUndefined => None
  | VNull => Some JNull
  | VBool b => Some (JBool b)
  | VNumber n => Some (json_of_number n)
  | VString s => Some (JString s)
  | VArray l =>
      Some (JArray (map (fun e =>
              match JSON_stringify e with Some j => j | None => JNull end) l))
  | VObject fields =>
      Some (JObject (flat_map (fun kv =>
              match JSON_stringify (snd kv) with
              | Some j => [(fst kv, j)]
              | None => []
              end) fields))
  end.

(** [JSON.parse] of a well-formed text; of a repeated member name the last
    value stands. *)
Fixpoint JSON_parse (j : json) : value :=
  match j with
  | JNull => VNull
  | JBool b => VBool b
  | JNumber n => VNumber n
  | JString s => VString s
  | JArray l => VArray (map JSON_parse l)
  | JObject members =>
      VObject (object_of (map (fun kj => (fst kj, JSON_parse (snd kj))) members))
  end.

End JS.

(* ================================================================== *)
(** * The codec *)
(* ================================================================== *)

Module Codec.
Import JS.

(** ** Effects

    The codec is pure apart from its calls of the host's callbacks ([log],
    [output]). A computation is a trace of such calls and a completion; a
    throw ends the trace. *)

(** A template literal. A substitution is kept as the value it converts,
    once [substitution] has found that its [ToString] completes. *)
Inductive piece : Type :=
| Lit (s : string)
| Sub (v : value)
| Wire (t : option json).

Inductive event : Type :=
| Log (line : list piece)
| Output (v : value).

Definition M (A : Type) : Type := (list event * outcome A)%type.

Definition ret {A} (a : A) : M A := ([], Normal a).

Definition lift {A} (c : outcome A) : M A := ([], c).

Definition bind {A B} (c : M A) (k : A -> M B) : M B :=
  match c with
  | (t, Normal a) => let (t', r) := k a in (t ++ t', r)
  | (t, Throw e) => (t, Throw e)
  | (t, Unmodelled) => (t, Unmodelled)
  end.

(** [${v}]: the conversion of a substitution throws where [ToString]
    does. *)
Definition substitution (v : value) : outcome piece :=
  if convertible v then Normal (Sub v) else Throw TypeError.

Declare Scope M_scope.
Delimit Scope M_scope with M.
Notation "x <- c ;; k" := (bind c (fun x => k))
  (at level 61, c at next level, right associativity) : M_scope.
Notation "c ;;; k" := (bind c (fun _ => k))
  (at level 61, right associativity) : M_scope.

(** ** What [init] returns *)

Record codec : Type := {
  encode : value -> M (option json);
  decode : json -> M value
}.

Record property_codecs : Type := {
  on : codec;
  brightness : codec;
  colorTemperature : codec;
  RGB : codec
}.

(** A member of the returned object: a function of [(message, info,
    output)] or the [properties] mapping. *)
Inductive member : Type :=
| Method (f : value -> value -> (value -> M unit) -> M value)
| Properties (p : property_codecs).

Record params : Type := {
  log : list piece -> M unit;
  config : value
}.

(** [require("./cie-rgb-converter.js").cie_to_rgb]: the converter module is
    not part of the codec's file and is a parameter of the embedding. *)
Definition converter : Type := value -> value -> value -> outcome value.

Section Init.
Variable cie_to_rgb : converter.
Variable log : list piece -> M unit.

(** The first method of the returned object literal, named [function]. *)
Definition function_encode (message info : value) (output : value -> M unit)
  : M value :=
  (topic <- lift (t <- get info "topic" ;; substitution t)%outcome ;;
   property <- lift (p <- get info "property" ;; substitution p)%outcome ;;
   msg <- lift (substitution message) ;;
   log [Lit "encode() called for topic ["; topic;
        Lit "], property ["; property;
        Lit "] with message ["; msg; Lit "]"] ;;;
   output message ;;;
   ret VUndefined)%M.

(** The second method of the returned object literal, named [function]
    as well. *)
Definition function_decode (message info : value) (output : value -> M unit)
  : M value :=
  (topic <- lift (t <- get info "topic" ;; substitution t)%outcome ;;
   property <- lift (p <- get info "property" ;; substitution p)%outcome ;;
   msg <- lift (substitution message) ;;
   log [Lit "decode() called for topic ["; topic;
        Lit "], property ["; property;
        Lit "] with message ["; msg; Lit "]"] ;;;
   output message ;;;
   ret VUndefined)%M.

(** *** [properties.on] *)

Definition on_encode (message : value) : outcome (option json) :=
  Normal (JSON_stringify (VObject (object_of
    [("state", VString (if ToBoolean message then "ON" else "OFF"))]))).

Definition on_decode (message : json) : outcome value :=
  let msg := JSON_parse message in
  (state <- get msg "state" ;;
   if ToBoolean state
   then (state <- get msg "state" ;;
         b <- loose_eq_string state "ON" ;;
         Normal (VBool b))
   else Normal VUndefined)%outcome.

(** *** [properties.brightness] *)

Definition brightness_encode (message : value) : outcome (option json) :=
  (m <- ToNumber message ;;
   let brightness := Math_round (m * 2.54)%float in
   Normal (JSON_stringify (VObject (object_of
     [("state", VString (if ToBoolean (VNumber brightness) then "ON" else "OFF"));
      ("brightness", VNumber brightness)]))))%outcome.

Definition brightness_decode (message : json) : outcome value :=
  let msg := JSON_parse message in
  (b <- get msg "brightness" ;;
   if ToBoolean b
   then (b <- get msg "brightness" ;;
         n <- ToNumber b ;;
         Normal (VNumber (Math_round (n / 2.54)%float)))
   else Normal VUndefined)%outcome.

(** *** [properties.colorTemperature] *)

Definition colorTemperature_encode (message : value) : outcome (option json) :=
  let ikeaMax := 454%float in
  let ikeaMin := 250%float in
  let ikeaRange := (ikeaMax - ikeaMin)%float in
  let zigbeeMax := 500%float in
  let zigbeeMin := 140%float in
  let zigbeeRange := (zigbeeMax - zigbeeMin)%float in
  (m <- ToNumber message ;;
   let colorTemp :=
     Math_round (((m - zigbeeMin) * ikeaRange) / zigbeeRange + ikeaMin)%float in
   Normal (JSON_stringify (VObject (object_of
     [("color_temp", VNumber colorTemp)]))))%outcome.

Definition colorTemperature_decode (message : json) : outcome value :=
  let ikeaMax := 454%float in
  let ikeaMin := 250%float in
  let ikeaRange := (ikeaMax - ikeaMin)%float in
  let zigbeeMax := 500%float in
  let zigbeeMin := 140%float in
  let zigbeeRange := (zigbeeMax - zigbeeMin)%float in
  let msg := JSON_parse message in
  (c <- get msg "color_temp" ;;
   if ToBoolean c
   then (c <- get msg "color_temp" ;;
         n <- ToNumber c ;;
         let colorTemp :=
           Math_round (((n - ikeaMin) * zigbeeRange) / ikeaRange + zigbeeMin)%float in
         Normal (VNumber colorTemp))
   else Normal VUndefined)%outcome.

(** *** [properties.RGB] *)

(** [message.split(",")]: only a string has the method. *)
Definition split_message (message : value) : outcome (list string) :=
  match message with
  | VString s => Normal (split s)
  | _ => Throw TypeError
  end.

Definition RGB_encode (message : value) : M (option json) :=
  (request <- lift (substitution message) ;;
   log [Lit "RGB encode request: "; request] ;;;
   rgb <- lift (split_message message) ;;
   r <- lift (ToNumber (index rgb 0)) ;;
   g <- lift (ToNumber (index rgb 1)) ;;
   b <- lift (ToNumber (index rgb 2)) ;;
   let brightness := Math_round (0.299 * r + 0.587 * g + 0.114 * b)%float in
   let response := JSON_stringify (VObject (object_of
     [("state", VString (if ToBoolean (VNumber brightness) then "ON" else "OFF"));
      ("brightness", VNumber brightness);
      ("color", VObject (object_of
         [("r", VNumber r); ("g", VNumber g); ("b", VNumber b)]))])) in
   log [Lit "RGB encode response: "; Wire response] ;;;
   ret response)%M.

Definition RGB_decode (message : json) : M value :=
  (log [Lit "RGB decode request: "; Wire (Some message)] ;;;
   let msg := JSON_parse message in
   color <- lift (get msg "color") ;;
   if ToBoolean color
   then (x <- lift (c <- get msg "color" ;; get c "x")%outcome ;;
         y <- lift (c <- get msg "color" ;; get c "y")%outcome ;;
         brightness <- lift (get msg "brightness") ;;
         rgb <- lift (cie_to_rgb x y brightness) ;;
         s <- lift (join rgb ",") ;;
         ret (VString s))
   else ret VUndefined)%M.

Definition properties : property_codecs := {|
  on := {| encode := fun m => lift (on_encode m);
           decode := fun m => lift (on_decode m) |};
  brightness := {| encode := fun m => lift (brightness_encode m);
                   decode := fun m => lift (brightness_decode m) |};
  colorTemperature := {| encode := fun m => lift (colorTemperature_encode m);
                         decode := fun m => lift (colorTemperature_decode m) |};
  RGB := {| encode := RGB_encode; decode := RGB_decode |}
|}.
End Init.

(** [exports.init]. The object literal it returns has three property
    definitions, in this order: a method [function], a second method
    [function], and [properties]. *)
Definition init (conv : converter) (p : params) : M (list (string * member)) :=
  let log := log p in
  let config := config p in
  (name <- lift (n <- get config "name" ;; substitution n)%outcome ;;
   log [Lit "Trådfri codec initialized with "; name; Lit "."] ;;;
   ret (object_of
     [("function", Method (function_encode log));
      ("function", Method (function_decode log));
      ("properties", Properties (properties conv log))]))%M.

End Codec.

(* ================================================================== *)
(** * Vocabulary of the statements *)
(* ================================================================== *)

Import JS Codec.

(** The host's callbacks, recording their calls. *)
Definition host_log (line : list piece) : M unit := ([Log line], Normal tt).
Definition host_output (v : value) : M unit := ([Output v], Normal tt).

(** An accessory's parameters, and a converter that answers nothing. *)
Definition lamp_params : params :=
  {| log := host_log; config := VObject [("name", VString "lamp")] |}.

Definition silent_converter : converter := fun _ _ _ => Normal (VArray []).

(** A callback that returns normally, whatever it records. *)
Definition returns {A} (f : A -> M unit) : Prop :=
  forall a, exists t, f a = (t, Normal tt).

(** The field [k] of a wire message; [undefined] when the message has no
    such member. *)
Definition field_of (message : json) (k : string) : value :=
  match JSON_parse message with
  | VObject fields =>
      match lookup k fields with Some a => a | None => VUndefined end
  | _ => VUndefined
  end.

(** The integer nearest to [p / q], the greater one on a tie ([0 < q]). *)
Definition round_div (p q : Z) : Z := (2 * p + q) / (2 * q).

(** The two rescalings in exact arithmetic. *)
Definition color_temp_exact (v : Z) : Z :=
  round_div ((v - 140) * (454 - 250) + 250 * (500 - 140)) (500 - 140).

Definition mired_exact (c : Z) : Z :=
  round_div ((c - 250) * (500 - 140) + 140 * (454 - 250)) (454 - 250).

(** The rescaling formula of the specification, in the arithmetic of
    numbers. *)
Definition rescale_to_vendor (v : number) : number :=
  Math_round ((v - 140) * (454 - 250) / (500 - 140) + 250)%float.

Definition rescale_to_native (c : number) : number :=
  Math_round ((c - 250) * (500 - 140) / (454 - 250) + 140)%float.

(** The luma of three channels, rounded. *)
Definition luma (r g b : number) : number :=
  Math_round (0.299 * r + 0.587 * g + 0.114 * b)%float.

(** The decimal numeral of an integer and the string ["r,g,b"]. *)
Definition numeral (z : Z) : string := NilZero.string_of_int (Z.to_int z).

Definition rgb_string (r g b : Z) : string :=
  (numeral r ++ "," ++ numeral g ++ "," ++ numeral b)%string.

(** Wire messages with one integer field. *)
Definition wire_brightness (b : Z) : json :=
  JObject [("brightness", JNumber (number_of_Z b))].

Definition wire_color_temp (c : Z) : json :=
  JObject [("color_temp", JNumber (number_of_Z c))].

(** ** Exhaustive checks over an interval of integers *)

(** [all_range f lo p]: [f] holds on the [p] integers from [lo]. *)
Fixpoint all_range (f : Z -> bool) (lo : Z) (p : positive) : bool :=
  match p with
  | xH => f lo
  | xO p' => all_range f lo p' && all_range f (lo + Zpos p') p'
  | xI p' =>
      all_range f lo p' && all_range f (lo + Zpos p') p' && f (lo + Zpos p'~0)
  end.

(** The integer a decoder returns, and the integer an encoder puts in the
    only field [k] of its message. *)
Definition returned_int (r : outcome value) : option Z :=
  match r with
  | Normal (VNumber x) => Z_of_number x
  | _ => None
  end.

Definition emitted_int (k : string) (r : outcome (option json)) : option Z :=
  match r with
  | Normal (Some (JObject [(k', JNumber x)])) =>
      if String.eqb k k' then Z_of_number x else None
  | _ => None
  end.

Definition decode_after (enc : value -> outcome (option json))
    (dec : json -> outcome value) (v : value) : outcome value :=
  match enc v with
  | Normal (Some t) => dec t
  | _ => Unmodelled
  end.

Definition within_one (v : Z) (o : option Z) : bool :=
  match o with
  | Some n => (v - 1 <=? n) && (n <=? v + 1)
  | None => false
  end.

Definition check_colorTemperature_roundtrip (v : Z) : bool :=
  within_one v (returned_int
    (decode_after colorTemperature_encode colorTemperature_decode
       (VNumber (number_of_Z v)))).

Definition check_brightness_roundtrip (v : Z) : bool :=
  within_one v (returned_int
    (decode_after brightness_encode brightness_decode (VNumber (number_of_Z v)))).

Definition check_brightness_decode (b : Z) : bool :=
  match returned_int (brightness_decode (wire_brightness b)) with
  | Some n => (0 <=? n) && (n <=? 100)
  | None => false
  end.

(** [n] is [round_div p q], without a division. *)
Definition is_round_div (p q n : Z) : bool :=
  (2 * q * n <=? 2 * p + q) && (2 * p + q <? 2 * q * (n + 1)).

Definition check_encode_exact (v : Z) : bool :=
  match emitted_int "color_temp"
          (colorTemperature_encode (VNumber (number_of_Z v))) with
  | Some n =>
      is_round_div ((v - 140) * (454 - 250) + 250 * (500 - 140)) (500 - 140) n
  | None => false
  end.

Definition check_decode_exact (c : Z) : bool :=
  match returned_int (colorTemperature_decode (wire_color_temp c)) with
  | Some n =>
      is_round_div ((c - 250) * (500 - 140) + 140 * (454 - 250)) (454 - 250) n
  | None => c =? 0
  end.

(** The interval of the exhaustive checks of the rescalings,
    [-65536 .. 65535]: the 16-bit color temperatures of the wire and their
    negatives. *)
Definition window_lo : Z := -65536.
Definition window_size : positive := 131072.
Definition in_window (v : Z) : Prop := window_lo <= v < window_lo + Zpos window_size.

(** ** Vocabulary of the further properties *)

(** The own property [k] of a value; [undefined] when it has none. *)
Definition property_of (v : value) (k : string) : value :=
  match v with
  | VObject fields =>
      match lookup k fields with Some a => a | None => VUndefined end
  | _ => VUndefined
  end.

(** The message the [RGB] encoder builds from three numbers. *)
Definition rgb_message (r g b : number) : option json :=
  JSON_stringify (VObject (object_of
    [("state", VString (if ToBoolean (VNumber (luma r g b)) then "ON" else "OFF"));
     ("brightness", VNumber (luma r g b));
     ("color", VObject (object_of
        [("r", VNumber r); ("g", VNumber g); ("b", VNumber b)]))])).

(** The integer field [k] of a message an encoder returned. *)
Definition emitted_field (k : string) (r : outcome (option json)) : option Z :=
  match r with
  | Normal (Some t) =>
      match field_of t k with
      | VNumber x => Z_of_number x
      | _ => None
      end
  | _ => None
  end.

(** The string field [k] of a message an encoder returned. *)
Definition emitted_string (k : string) (r : outcome (option json)) : option string :=
  match r with
  | Normal (Some t) =>
      match field_of t k with
      | VString s => Some s
      | _ => None
      end
  | _ => None
  end.

(** An encoder applied to what a decoder returned. *)
Definition encode_after (dec : json -> outcome value)
    (enc : value -> outcome (option json)) (t : json) : outcome (option json) :=
  match dec t with
  | Normal v => enc v
  | Throw e => Throw e
  | Unmodelled => Unmodelled
  end.

Definition check_brightness_exact (v : Z) : bool :=
  match returned_int
          (decode_after brightness_encode brightness_decode
             (VNumber (number_of_Z v))) with
  | Some n => n =? v
  | None => false
  end.

Definition check_brightness_encode (v : Z) : bool :=
  let r := brightness_encode (VNumber (number_of_Z v)) in
  match emitted_field "brightness" r, emitted_string "state" r with
  | Some b, Some s =>
      is_round_div (v * 254) 100 b
      && String.eqb s (if v =? 0 then "OFF" else "ON")
  | _, _ => false
  end.

Definition check_brightness_wire (b : Z) : bool :=
  within_one b
    (emitted_field "brightness"
       (encode_after brightness_decode brightness_encode (wire_brightness b))).

Definition check_colorTemperature_wire (c : Z) : bool :=
  match emitted_field "color_temp"
          (encode_after colorTemperature_decode colorTemperature_encode
             (wire_color_temp c)) with
  | Some n => n =? c
  | None => false
  end.

Definition check_state_of_brightness (v : Z) : bool :=
  match decode_after brightness_encode on_decode (VNumber (number_of_Z v)) with
  | Normal (VBool b) => Bool.eqb b (negb (v =? 0))
  | _ => false
  end.

Definition check_channel_string (k : Z) : bool :=
  match Number_toString (number_of_Z k) with
  | Normal s => String.eqb s (numeral k)
  | _ => false
  end.

(* ================================================================== *)
(** * Lemmas *)
(* ================================================================== *)

Lemma all_range_spec (f : Z -> bool) (p : positive) :
  forall lo, all_range f lo p = true ->
  forall v, lo <= v < lo + Zpos p -> f v = true.
Proof.
  induction p as [p IH | p IH | ]; simpl; intros lo H v Hv.
  - apply andb_prop in H as [H H3]. apply andb_prop in H as [H1 H2].
    destruct (Z_lt_le_dec v (lo + Zpos p)) as [Hlt | Hge].
    + apply (IH lo H1). lia.
    + destruct (Z.eq_dec v (lo + Zpos p~0)) as [-> | Hne]; [exact H3 |].
      apply (IH _ H2). lia.
  - apply andb_prop in H as [H1 H2].
    destruct (Z_lt_le_dec v (lo + Zpos p)) as [Hlt | Hge].
    + apply (IH lo H1). lia.
    + apply (IH _ H2). lia.
  - assert (v = lo) as -> by lia. exact H.
Qed.

Lemma returned_int_spec (r : outcome value) (n : Z) :
  returned_int r = Some n ->
  exists x, r = Normal (VNumber x) /\ Z_of_number x = Some n.
Proof.
  destruct r as [[ | | | x | | | ] | | ]; simpl; try discriminate.
  intros H. exists x. split; [reflexivity | exact H].
Qed.

Lemma emitted_int_spec (k : string) (r : outcome (option json)) (n : Z) :
  emitted_int k r = Some n ->
  exists x, r = Normal (Some (JObject [(k, JNumber x)])) /\ Z_of_number x = Some n.
Proof.
  destruct r as [[[ | | | | | [ | [k' [ | | x | | | ]] [ | ? ?]]] | ] | | ];
    simpl; try discriminate.
  destruct (String.eqb_spec k k') as [<- | ]; [ | discriminate].
  intros H. exists x. split; [reflexivity | exact H].
Qed.

Lemma is_round_div_spec (p q n : Z) :
  0 < q -> is_round_div p q n = true -> n = round_div p q.
Proof.
  intros Hq H. apply andb_prop in H as [H1 H2].
  apply Z.leb_le in H1. apply Z.ltb_lt in H2. unfold round_div.
  apply (Z.div_unique (2 * p + q) (2 * q) n (2 * p + q - 2 * q * n)); lia.
Qed.

Lemma within_one_spec (v : Z) (o : option Z) :
  within_one v o = true -> exists n, o = Some n /\ v - 1 <= n <= v + 1.
Proof.
  destruct o as [n | ]; simpl; [ | discriminate].
  intros H. apply andb_prop in H as [H1 H2]. exists n. split; [reflexivity | lia].
Qed.

Lemma decode_after_spec enc dec (v : value) (x : number) :
  decode_after enc dec v = Normal (VNumber x) ->
  exists t, enc v = Normal (Some t) /\ dec t = Normal (VNumber x).
Proof.
  unfold decode_after. destruct (enc v) as [[t | ] | | ]; try discriminate.
  intros H. exists t. split; [reflexivity | exact H].
Qed.

(** ** The built-ins and the scenarios of the specification, evaluated *)

Example Math_round_ties :
  Math_round 2.5 = 3%float /\ Math_round (-2.5) = (-2)%float
  /\ Math_round (-0.5) = neg_zero /\ Math_round 0.49999999999999994 = zero
  /\ Math_round (25 * 2.54) = 64%float /\ Math_round nan = nan
  /\ Math_round infinity = infinity.
Proof. repeat split; reflexivity. Qed.

Example number_of_Z_nearest :
  number_of_Z 0 = zero
  /\ number_of_Z 255 = SF2Prim (binary_normalize prec emax 255 0 false)
  /\ number_of_Z (-65536) = SF2Prim (binary_normalize prec emax (-65536) 0 false)
  /\ number_of_Z 9007199254740993 = 9007199254740992%float.
Proof. repeat split; reflexivity. Qed.

Example StringToNumber_forms :
  StringToNumber " -007 " = Normal (-7)%float
  /\ StringToNumber "" = Normal zero
  /\ StringToNumber "-0" = Normal neg_zero
  /\ StringToNumber "ON" = Normal nan
  /\ StringToNumber "1.5" = Unmodelled.
Proof. repeat split; reflexivity. Qed.

Example on_decode_OFF :
  on_decode (JObject [("state", JString "OFF")]) = Normal (VBool false).
Proof. reflexivity. Qed.

Example brightness_decode_empty :
  brightness_decode (JObject []) = Normal VUndefined.
Proof. reflexivity. Qed.

(** Components that are not numbers become [null] in the message. *)
Example RGB_encode_not_numeric :
  snd (RGB_encode host_log (VString "a,b"))
    = Normal (Some (JObject
        [("state", JString "OFF"); ("brightness", JNull);
         ("color", JObject [("r", JNull); ("g", JNull); ("b", JNull)])])).
Proof. reflexivity. Qed.

(** With a color, the [RGB] decoder joins what the converter answers. *)
Example RGB_decode_joins :
  RGB_decode (fun _ _ _ => Normal (VArray [VNumber 255; VNumber 128; VNumber 0]))
    host_log
    (JObject [("brightness", JNumber 254);
              ("color", JObject [("x", JNumber 0.5); ("y", JNumber 0.4)])])
  = ([Log [Lit "RGB decode request: ";
           Wire (Some (JObject [("brightness", JNumber 254);
                   ("color", JObject [("x", JNumber 0.5); ("y", JNumber 0.4)])]))]],
     Normal (VString "255,128,0")).
Proof. reflexivity. Qed.

Lemma colorTemperature_roundtrip_table :
  all_range check_colorTemperature_roundtrip 140 361 = true.
Proof. vm_cast_no_check (eq_refl true). Qed.

Lemma brightness_roundtrip_table :
  all_range check_brightness_roundtrip 1 100 = true.
Proof. vm_cast_no_check (eq_refl true). Qed.

(* ================================================================== *)
(** * Round trips *)
(* ================================================================== *)

(** C5. For every boolean [b], the [on] encoder emits [{"state": "ON"}]
    for [true] and [{"state": "OFF"}] for [false], and the [on] decoder
    returns exactly [b] on that message. *)
Theorem on_roundtrip (b : bool) :
  on_encode (VBool b)
    = Normal (Some (JObject [("state", JString (if b then "ON" else "OFF"))]))
  /\ on_decode (JObject [("state", JString (if b then "ON" else "OFF"))])
    = Normal (VBool b).
Proof. destruct b; split; reflexivity. Qed.

(** C2. For every integer [v] in [140, 500], the [colorTemperature]
    encoder emits a message on which the decoder returns a number, never
    [undefined]; that number is an integer [n] with [v - 1 <= n <= v + 1]. *)
Theorem colorTemperature_roundtrip (v : Z) :
  140 <= v <= 500 ->
  exists t x n,
    colorTemperature_encode (VNumber (number_of_Z v)) = Normal (Some t)
    /\ colorTemperature_decode t = Normal (VNumber x)
    /\ Z_of_number x = Some n
    /\ v - 1 <= n <= v + 1.
Proof.
  intros Hv.
  assert (H := all_range_spec _ _ _ colorTemperature_roundtrip_table v).
  unfold check_colorTemperature_roundtrip in H.
  destruct (within_one_spec _ _ (H ltac:(lia))) as (n & Hn & Hb).
  destruct (returned_int_spec _ _ Hn) as (x & Hx & Hz).
  destruct (decode_after_spec _ _ _ _ Hx) as (t & He & Hd).
  exists t, x, n. auto.
Qed.

Lemma colorTemperature_roundtrip_witness :
  exists t x n,
    colorTemperature_encode (VNumber (number_of_Z 141)) = Normal (Some t)
    /\ colorTemperature_decode t = Normal (VNumber x)
    /\ Z_of_number x = Some n
    /\ 141 - 1 <= n <= 141 + 1.
Proof. apply (colorTemperature_roundtrip 141). lia. Defined.

(** C3. For every integer [v] in [0, 100], the [brightness] encoder emits
    a message on which the decoder returns [undefined] when [v = 0], and
    otherwise an integer [n] with [v - 1 <= n <= v + 1]. *)
Theorem brightness_roundtrip (v : Z) :
  0 <= v <= 100 ->
  exists t,
    brightness_encode (VNumber (number_of_Z v)) = Normal (Some t)
    /\ (v = 0 -> brightness_decode t = Normal VUndefined)
    /\ (v <> 0 ->
        exists x n, brightness_decode t = Normal (VNumber x)
                    /\ Z_of_number x = Some n /\ v - 1 <= n <= v + 1).
Proof.
  intros Hv. destruct (Z.eq_dec v 0) as [-> | Hnz].
  - eexists. split; [reflexivity | ]. split; [reflexivity | congruence].
  - assert (H := all_range_spec _ _ _ brightness_roundtrip_table v).
    unfold check_brightness_roundtrip in H.
    destruct (within_one_spec _ _ (H ltac:(lia))) as (n & Hn & Hb).
    destruct (returned_int_spec _ _ Hn) as (x & Hx & Hz).
    destruct (decode_after_spec _ _ _ _ Hx) as (t & He & Hd).
    exists t. split; [exact He | ]. split; [congruence | ].
    intros _. exists x, n. auto.
Qed.

Lemma brightness_roundtrip_witness :
  exists t x n,
    brightness_encode (VNumber (number_of_Z 50)) = Normal (Some t)
    /\ brightness_decode t = Normal (VNumber x)
    /\ Z_of_number x = Some n /\ 50 - 1 <= n <= 50 + 1.
Proof.
  destruct (brightness_roundtrip 50 ltac:(lia)) as (t & He & _ & H).
  destruct (H ltac:(lia)) as (x & n & Hd). exists t, x, n. split; assumption.
Defined.

(* ================================================================== *)
(** * Decoding *)
(* ================================================================== *)

Lemma get_field_of (message : json) (k : string) :
  message <> JNull -> get (JSON_parse message) k = Normal (field_of message k).
Proof.
  intros Hm. destruct message; try reflexivity. contradiction.
Qed.

Lemma field_of_not_null (message : json) (k : string) (x : number) :
  field_of message k = VNumber x -> message <> JNull.
Proof. intros H ->. discriminate H. Qed.

Lemma brightness_decode_formula (message : json) (b : number) :
  field_of message "brightness" = VNumber b ->
  ToBoolean (VNumber b) = true ->
  brightness_decode message = Normal (VNumber (Math_round (b / 2.54))).
Proof.
  intros Hf Hb. unfold brightness_decode.
  rewrite (get_field_of _ _ (field_of_not_null _ _ _ Hf)), Hf.
  cbn [obind]. rewrite Hb. reflexivity.
Qed.

Lemma colorTemperature_decode_formula (message : json) (c : number) :
  field_of message "color_temp" = VNumber c ->
  ToBoolean (VNumber c) = true ->
  colorTemperature_decode message = Normal (VNumber (rescale_to_native c)).
Proof.
  intros Hf Hc. unfold colorTemperature_decode.
  rewrite (get_field_of _ _ (field_of_not_null _ _ _ Hf)), Hf.
  cbn [obind]. rewrite Hc. reflexivity.
Qed.

Lemma colorTemperature_encode_formula (v : number) :
  colorTemperature_encode (VNumber v)
    = Normal (Some (JObject [("color_temp", json_of_number (rescale_to_vendor v))])).
Proof. reflexivity. Qed.

Lemma brightness_decode_table :
  all_range check_brightness_decode 1 254 = true.
Proof. vm_cast_no_check (eq_refl true). Qed.

(** C4, as the code has it. For a wire message whose [brightness] field is
    a number [b] other than zero, the [brightness] decoder returns
    [Math.round(b / 2.54)] as it is, without a clamp; when the field is an
    integer [k] of the wire's range [1..254], the result is an integer of
    [0..100]. *)
Theorem brightness_decode_unclamped (message : json) (b : number) (k : Z) :
  field_of message "brightness" = VNumber b ->
  ToBoolean (VNumber b) = true ->
  1 <= k <= 254 ->
  brightness_decode message = Normal (VNumber (Math_round (b / 2.54)))
  /\ exists x n,
       brightness_decode (wire_brightness k) = Normal (VNumber x)
       /\ Z_of_number x = Some n /\ 0 <= n <= 100.
Proof.
  intros Hf Hb Hk. split; [apply brightness_decode_formula; assumption | ].
  assert (H := all_range_spec _ _ _ brightness_decode_table k ltac:(lia)).
  unfold check_brightness_decode in H.
  destruct (returned_int _) as [n | ] eqn:E; [ | discriminate].
  destruct (returned_int_spec _ _ E) as (x & Hx & Hz).
  apply andb_prop in H as [H1 H2]. exists x, n. repeat split; auto; lia.
Qed.

Lemma brightness_decode_unclamped_witness :
  brightness_decode (JObject [("state", JString "ON"); ("brightness", JNumber 127)])
    = Normal (VNumber (Math_round (127 / 2.54)))
  /\ exists x n,
       brightness_decode (wire_brightness 254) = Normal (VNumber x)
       /\ Z_of_number x = Some n /\ 0 <= n <= 100.
Proof.
  apply (brightness_decode_unclamped
           (JObject [("state", JString "ON"); ("brightness", JNumber 127)])
           127%float 254); [reflexivity | reflexivity | lia].
Defined.

(** C4, as stated, fails: the wire brightness 300 decodes to 118, above
    100. *)
Lemma brightness_decode_exceeds_100 :
  field_of (wire_brightness 300) "brightness" = VNumber 300
  /\ brightness_decode (wire_brightness 300) = Normal (VNumber 118)
  /\ Z_of_number 118 = Some 118
  /\ ~ 118 <= 100.
Proof. repeat split; try reflexivity. lia. Qed.

(** C6, as the code has it. On every wire message other than the JSON text
    [null], each property decoder returns [undefined] when its field
    ([state], [brightness], [color_temp], [color]) is absent or falsy
    (zero, the empty string, [false], [null]); the [RGB] decoder does so
    whatever the converter is, its logging call having returned. *)
Theorem decode_without_field (message : json) :
  message <> JNull ->
  (ToBoolean (field_of message "state") = false ->
   on_decode message = Normal VUndefined)
  /\ (ToBoolean (field_of message "brightness") = false ->
      brightness_decode message = Normal VUndefined)
  /\ (ToBoolean (field_of message "color_temp") = false ->
      colorTemperature_decode message = Normal VUndefined)
  /\ (ToBoolean (field_of message "color") = false ->
      forall (conv : converter) (log : list piece -> M unit),
        returns log ->
        snd (RGB_decode conv log message) = Normal VUndefined).
Proof.
  intros Hm. repeat split.
  - intros H. unfold on_decode. rewrite (get_field_of _ _ Hm).
    cbn [obind]. rewrite H. reflexivity.
  - intros H. unfold brightness_decode. rewrite (get_field_of _ _ Hm).
    cbn [obind]. rewrite H. reflexivity.
  - intros H. unfold colorTemperature_decode. rewrite (get_field_of _ _ Hm).
    cbn [obind]. rewrite H. reflexivity.
  - intros H conv log Hlog. unfold RGB_decode.
    destruct (Hlog [Lit "RGB decode request: "; Wire (Some message)]) as [t ->].
    rewrite (get_field_of _ _ Hm). simpl. rewrite H. reflexivity.
Qed.

Lemma host_log_returns : returns host_log.
Proof. intros line. exists [Log line]. reflexivity. Qed.

Lemma decode_without_field_witness :
  on_decode (JObject [("brightness", JNumber 0)]) = Normal VUndefined
  /\ brightness_decode (JObject [("brightness", JNumber 0)]) = Normal VUndefined
  /\ colorTemperature_decode (JObject [("brightness", JNumber 0)]) = Normal VUndefined
  /\ snd (RGB_decode silent_converter host_log
            (JObject [("brightness", JNumber 0)])) = Normal VUndefined.
Proof.
  destruct (decode_without_field (JObject [("brightness", JNumber 0)])
              ltac:(discriminate)) as (H1 & H2 & H3 & H4).
  split; [apply H1; reflexivity | ].
  split; [apply H2; reflexivity | ].
  split; [apply H3; reflexivity | ].
  apply H4; [reflexivity | apply host_log_returns].
Defined.

(** C6, as stated, fails: the JSON text [null] is a well-formed message
    without any field, and each decoder throws a [TypeError] on it when it
    reads the field. *)
Lemma decode_null_throws :
  ToBoolean (field_of JNull "state") = false
  /\ on_decode JNull = Throw TypeError
  /\ brightness_decode JNull = Throw TypeError
  /\ colorTemperature_decode JNull = Throw TypeError
  /\ (forall conv, snd (RGB_decode conv host_log JNull) = Throw TypeError).
Proof. repeat split; reflexivity. Qed.

(* ================================================================== *)
(** * The rescaling of color temperatures *)
(* ================================================================== *)

Lemma encode_exact_table :
  all_range check_encode_exact window_lo window_size = true.
Proof. vm_cast_no_check (eq_refl true). Qed.

Lemma decode_exact_table :
  all_range check_decode_exact window_lo window_size = true.
Proof. vm_cast_no_check (eq_refl true). Qed.

(** On the integers of the window the encoder computes, in binary64, the
    rescaling of exact arithmetic. *)
Lemma colorTemperature_encode_exact (v : Z) :
  in_window v ->
  exists x,
    colorTemperature_encode (VNumber (number_of_Z v))
      = Normal (Some (JObject [("color_temp", JNumber x)]))
    /\ Z_of_number x = Some (color_temp_exact v).
Proof.
  intros Hv. assert (H := all_range_spec _ _ _ encode_exact_table v Hv).
  unfold check_encode_exact in H.
  destruct (emitted_int _ _) as [n | ] eqn:E; [ | discriminate].
  apply is_round_div_spec in H; [ | lia]. fold (color_temp_exact v) in H. subst n.
  destruct (emitted_int_spec _ _ _ E) as (x & Hx & Hz). exists x. auto.
Qed.

(** And so does the decoder, on a field that is not zero. *)
Lemma colorTemperature_decode_exact (c : Z) :
  in_window c -> c <> 0 ->
  exists x,
    colorTemperature_decode (wire_color_temp c) = Normal (VNumber x)
    /\ Z_of_number x = Some (mired_exact c).
Proof.
  intros Hc Hnz. assert (H := all_range_spec _ _ _ decode_exact_table c Hc).
  unfold check_decode_exact in H.
  destruct (returned_int _) as [n | ] eqn:E; [ | apply Z.eqb_eq in H; contradiction].
  apply is_round_div_spec in H; [ | lia]. fold (mired_exact c) in H. subst n.
  destruct (returned_int_spec _ _ E) as (x & Hx & Hz). exists x. auto.
Qed.

Lemma color_temp_exact_below (v : Z) : v < 140 -> color_temp_exact v < 250.
Proof.
  intros H. unfold color_temp_exact, round_div.
  apply Z.div_lt_upper_bound; lia.
Qed.

Lemma color_temp_exact_above (v : Z) : 500 < v -> 454 < color_temp_exact v.
Proof.
  intros H. unfold color_temp_exact, round_div.
  apply Z.lt_le_trans with 455; [lia | ]. apply Z.div_le_lower_bound; lia.
Qed.

Lemma mired_exact_below (c : Z) : c < 250 -> mired_exact c < 140.
Proof.
  intros H. unfold mired_exact, round_div.
  apply Z.div_lt_upper_bound; lia.
Qed.

Lemma mired_exact_above (c : Z) : 454 < c -> 500 < mired_exact c.
Proof.
  intros H. unfold mired_exact, round_div.
  apply Z.lt_le_trans with 501; [lia | ]. apply Z.div_le_lower_bound; lia.
Qed.

(** C7. For every number [v] the [colorTemperature] encoder emits an
    object whose only field, [color_temp], is
    [round((v - 140) * (454-250)/(500-140) + 250)]; 140 gives 250 and 500
    gives 454. On an integer [k] of the window that value is the integer
    nearest to the exact quotient. *)
Theorem colorTemperature_encode_rescales (v : number) (k : Z) :
  in_window k ->
  colorTemperature_encode (VNumber v)
    = Normal (Some (JObject [("color_temp", json_of_number (rescale_to_vendor v))]))
  /\ colorTemperature_encode (VNumber 140)
     = Normal (Some (JObject [("color_temp", JNumber 250)]))
  /\ colorTemperature_encode (VNumber 500)
     = Normal (Some (JObject [("color_temp", JNumber 454)]))
  /\ exists x,
       colorTemperature_encode (VNumber (number_of_Z k))
         = Normal (Some (JObject [("color_temp", JNumber x)]))
       /\ Z_of_number x = Some (color_temp_exact k).
Proof.
  intros Hk.
  split; [apply colorTemperature_encode_formula | ].
  split; [reflexivity | ]. split; [reflexivity | ].
  apply colorTemperature_encode_exact, Hk.
Qed.

Lemma colorTemperature_encode_rescales_witness :
  colorTemperature_encode (VNumber 320.5)
    = Normal (Some (JObject [("color_temp", json_of_number (rescale_to_vendor 320.5))]))
  /\ colorTemperature_encode (VNumber 140)
     = Normal (Some (JObject [("color_temp", JNumber 250)]))
  /\ colorTemperature_encode (VNumber 500)
     = Normal (Some (JObject [("color_temp", JNumber 454)]))
  /\ exists x,
       colorTemperature_encode (VNumber (number_of_Z 155))
         = Normal (Some (JObject [("color_temp", JNumber x)]))
       /\ Z_of_number x = Some (color_temp_exact 155).
Proof.
  apply (colorTemperature_encode_rescales 320.5%float 155).
  unfold in_window, window_lo, window_size. lia.
Defined.

(** C10, as stated, fails in its second half: a wire [color_temp] that is
    not an integer can lie outside [250, 454] and be decoded inside
    [140, 500]. 249.9 is decoded to 140, and 454.2 to 500. *)
Lemma colorTemperature_decode_fraction :
  field_of (JObject [("color_temp", JNumber 249.9)]) "color_temp" = VNumber 249.9
  /\ ToBoolean (VNumber 249.9) = true
  /\ (249.9 <? 250)%float = true
  /\ colorTemperature_decode (JObject [("color_temp", JNumber 249.9)])
     = Normal (VNumber 140)
  /\ Z_of_number 140 = Some 140
  /\ (454 <? 454.2)%float = true
  /\ colorTemperature_decode (JObject [("color_temp", JNumber 454.2)])
     = Normal (VNumber 500)
  /\ Z_of_number 500 = Some 500.
Proof. repeat split; reflexivity. Qed.

(** Beyond the range of the numbers the rescaling overflows, and the
    message carries [null]. *)
Example colorTemperature_encode_overflow :
  colorTemperature_encode (VNumber (number_of_Z (10 ^ 308)))
    = Normal (Some (JObject [("color_temp", JNull)])).
Proof. reflexivity. Qed.

(** C10, as the code has it. Neither direction validates or clamps. The
    encoder applies the rescaling to every number, and the decoder to
    every field that is a number other than zero. An integer [v] of the
    window outside [140, 500] is encoded to a [color_temp] outside
    [250, 454] (0 to 171), and an integer field [c] of the window, other
    than zero and outside [250, 454], is decoded to a value outside
    [140, 500]. *)
Theorem colorTemperature_no_clamping (v c : Z) :
  in_window v -> v < 140 \/ 500 < v ->
  in_window c -> c <> 0 -> c < 250 \/ 454 < c ->
  (forall m : number,
     colorTemperature_encode (VNumber m)
       = Normal (Some (JObject [("color_temp", json_of_number (rescale_to_vendor m))])))
  /\ (exists x n,
        colorTemperature_encode (VNumber (number_of_Z v))
          = Normal (Some (JObject [("color_temp", JNumber x)]))
        /\ Z_of_number x = Some n /\ (n < 250 \/ 454 < n))
  /\ colorTemperature_encode (VNumber 0)
     = Normal (Some (JObject [("color_temp", JNumber 171)]))
  /\ (forall (message : json) (m : number),
        field_of message "color_temp" = VNumber m ->
        ToBoolean (VNumber m) = true ->
        colorTemperature_decode message = Normal (VNumber (rescale_to_native m)))
  /\ (exists x n,
        colorTemperature_decode (wire_color_temp c) = Normal (VNumber x)
        /\ Z_of_number x = Some n /\ (n < 140 \/ 500 < n)).
Proof.
  intros Hv Hvout Hc Hnz Hcout.
  split; [exact colorTemperature_encode_formula | ].
  split.
  { destruct (colorTemperature_encode_exact v Hv) as (x & Hx & Hz).
    exists x, (color_temp_exact v). split; [exact Hx | ]. split; [exact Hz | ].
    destruct Hvout as [Hlo | Hhi].
    - left. apply color_temp_exact_below, Hlo.
    - right. apply color_temp_exact_above, Hhi. }
  split; [reflexivity | ].
  split; [exact colorTemperature_decode_formula | ].
  destruct (colorTemperature_decode_exact c Hc Hnz) as (x & Hx & Hz).
  exists x, (mired_exact c). split; [exact Hx | ]. split; [exact Hz | ].
  destruct Hcout as [Hlo | Hhi].
  - left. apply mired_exact_below, Hlo.
  - right. apply mired_exact_above, Hhi.
Qed.

Lemma colorTemperature_no_clamping_witness :
  (forall m : number,
     colorTemperature_encode (VNumber m)
       = Normal (Some (JObject [("color_temp", json_of_number (rescale_to_vendor m))])))
  /\ (exists x n,
        colorTemperature_encode (VNumber (number_of_Z 501))
          = Normal (Some (JObject [("color_temp", JNumber x)]))
        /\ Z_of_number x = Some n /\ (n < 250 \/ 454 < n))
  /\ colorTemperature_encode (VNumber 0)
     = Normal (Some (JObject [("color_temp", JNumber 171)]))
  /\ (forall (message : json) (m : number),
        field_of message "color_temp" = VNumber m ->
        ToBoolean (VNumber m) = true ->
        colorTemperature_decode message = Normal (VNumber (rescale_to_native m)))
  /\ (exists x n,
        colorTemperature_decode (wire_color_temp 249) = Normal (VNumber x)
        /\ Z_of_number x = Some n /\ (n < 140 \/ 500 < n)).
Proof.
  apply (colorTemperature_no_clamping 501 249);
    unfold in_window, window_lo, window_size; lia.
Defined.

(* ================================================================== *)
(** * Numerals and [RGB.encode] *)
(* ================================================================== *)

Lemma string_forallb_impl (p q : ascii -> bool) (s : string) :
  (forall c, p c = true -> q c = true) ->
  string_forallb p s = true -> string_forallb q s = true.
Proof.
  intros Hpq. induction s as [ | c r IH]; simpl; [reflexivity | ].
  intros H. apply andb_prop in H as [Hc Hr].
  rewrite (Hpq c Hc), (IH Hr). reflexivity.
Qed.

Lemma is_digit_char (c : ascii) :
  is_digit c = true ->
  is_ascii c = true /\ is_white_space c = false
  /\ Ascii.eqb c "," = false /\ Ascii.eqb c "-" = false /\ Ascii.eqb c "+" = false.
Proof.
  destruct c as [[] [] [] [] [] [] [] []]; cbv; intros H;
    try discriminate H; repeat split.
Qed.

Lemma digits_of_uint (d : Decimal.uint) :
  string_forallb is_digit (NilEmpty.string_of_uint d) = true.
Proof. induction d; simpl; auto. Qed.

Lemma trim_right_noop (s : string) :
  string_forallb (fun c => negb (is_white_space c)) s = true -> trim_right s = s.
Proof.
  induction s as [ | c r IH]; simpl; [reflexivity | ].
  intros H. apply andb_prop in H as [Hc Hr]. rewrite (IH Hr).
  apply negb_true_iff in Hc. destruct r; [rewrite Hc | ]; reflexivity.
Qed.

Lemma trim_noop (s : string) :
  string_forallb (fun c => negb (is_white_space c)) s = true -> trim s = s.
Proof.
  intros H. unfold trim. rewrite (trim_right_noop s H).
  destruct s as [ | c r]; simpl in *; [reflexivity | ].
  apply andb_prop in H as [Hc _]. apply negb_true_iff in Hc.
  rewrite Hc. reflexivity.
Qed.

Lemma split_append (s rest : string) :
  string_forallb (fun c => negb (Ascii.eqb c ",")) s = true ->
  split (s ++ String "," rest) = s :: split rest.
Proof.
  induction s as [ | c r IH]; simpl; [reflexivity | ].
  intros H. apply andb_prop in H as [Hc Hr]. apply negb_true_iff in Hc.
  rewrite Hc, (IH Hr). reflexivity.
Qed.

Lemma split_single (s : string) :
  string_forallb (fun c => negb (Ascii.eqb c ",")) s = true -> split s = [s].
Proof.
  induction s as [ | c r IH]; simpl; [reflexivity | ].
  intros H. apply andb_prop in H as [Hc Hr]. apply negb_true_iff in Hc.
  rewrite Hc, (IH Hr). reflexivity.
Qed.

(** A numeral is a run of digits that is not empty, after a minus sign for
    a negative integer. *)
Lemma numeral_shape (z : Z) :
  exists d,
    d <> Decimal.Nil /\ Z.of_uint d = Z.abs z
    /\ numeral z = (if z <? 0 then String "-" (NilEmpty.string_of_uint d)
                    else NilEmpty.string_of_uint d).
Proof.
  destruct z as [ | p | p].
  - exists (Decimal.D0 Decimal.Nil). repeat split. discriminate.
  - exists (Pos.to_uint p). split; [apply DecimalPos.Unsigned.to_uint_nonnil | ].
    split.
    + unfold Z.of_uint. rewrite DecimalPos.Unsigned.of_to. reflexivity.
    + unfold numeral. simpl.
      assert (Hn := DecimalPos.Unsigned.to_uint_nonnil p).
      destruct (Pos.to_uint p); try reflexivity. contradiction.
  - exists (Pos.to_uint p). split; [apply DecimalPos.Unsigned.to_uint_nonnil | ].
    split.
    + unfold Z.of_uint. rewrite DecimalPos.Unsigned.of_to. reflexivity.
    + unfold numeral. simpl.
      assert (Hn := DecimalPos.Unsigned.to_uint_nonnil p).
      destruct (Pos.to_uint p); try reflexivity. contradiction.
Qed.

Lemma StringToNumber_digits (neg : bool) (d : Decimal.uint) :
  d <> Decimal.Nil ->
  StringToNumber (if neg then String "-" (NilEmpty.string_of_uint d)
                  else NilEmpty.string_of_uint d)
    = Normal (signed neg (Z.of_uint d)).
Proof.
  intros Hd.
  assert (Hdig := digits_of_uint d).
  assert (Hascii : string_forallb is_ascii (NilEmpty.string_of_uint d) = true).
  { revert Hdig. apply string_forallb_impl. intros c Hc.
    apply (is_digit_char c Hc). }
  assert (Hws : string_forallb (fun c => negb (is_white_space c))
                  (NilEmpty.string_of_uint d) = true).
  { revert Hdig. apply string_forallb_impl. intros c Hc.
    apply negb_true_iff. apply (is_digit_char c Hc). }
  assert (Hparse : NilZero.uint_of_string (NilEmpty.string_of_uint d) = Some d).
  { rewrite <- (NilZero.usu d Hd). destruct d; try reflexivity. contradiction. }
  unfold StringToNumber. destruct neg.
  - change (string_forallb is_ascii (String "-" (NilEmpty.string_of_uint d)))
      with (string_forallb is_ascii (NilEmpty.string_of_uint d)).
    rewrite Hascii. cbn [negb].
    rewrite trim_noop by (simpl; exact Hws).
    change (Ascii.eqb "-" "-") with true. cbn iota. rewrite Hparse. reflexivity.
  - rewrite Hascii. cbn [negb]. rewrite (trim_noop _ Hws).
    destruct (NilEmpty.string_of_uint d) as [ | c r] eqn:E.
    + destruct d; try discriminate E. contradiction.
    + simpl in Hdig. apply andb_prop in Hdig as [Hc _].
      destruct (is_digit_char c Hc) as (_ & _ & _ & Hm & Hp).
      rewrite Hm, Hp. cbn iota. rewrite Hparse. reflexivity.
Qed.

Lemma StringToNumber_numeral (z : Z) :
  StringToNumber (numeral z) = Normal (number_of_Z z).
Proof.
  destruct (numeral_shape z) as (d & Hd & Hv & ->).
  rewrite (StringToNumber_digits (z <? 0) d Hd), Hv. f_equal.
  unfold signed. destruct (Z.ltb_spec z 0) as [Hneg | Hpos].
  - destruct (Z.eqb_spec (Z.abs z) 0); [lia | ]. f_equal. lia.
  - f_equal. lia.
Qed.

Lemma numeral_no_comma (z : Z) :
  string_forallb (fun c => negb (Ascii.eqb c ",")) (numeral z) = true.
Proof.
  destruct (numeral_shape z) as (d & _ & _ & ->).
  assert (H : string_forallb (fun c => negb (Ascii.eqb c ","))
                (NilEmpty.string_of_uint d) = true).
  { generalize (digits_of_uint d). apply string_forallb_impl. intros c Hc.
    apply negb_true_iff. apply (is_digit_char c Hc). }
  destruct (z <? 0); [simpl; exact H | exact H].
Qed.

Lemma split_rgb_string (r g b : Z) :
  split (rgb_string r g b) = [numeral r; numeral g; numeral b].
Proof.
  unfold rgb_string.
  change ("," ++ numeral g ++ "," ++ numeral b)%string
    with (String "," (numeral g ++ String "," (numeral b))).
  rewrite (split_append _ _ (numeral_no_comma r)).
  rewrite (split_append _ _ (numeral_no_comma g)).
  rewrite (split_single _ (numeral_no_comma b)). reflexivity.
Qed.

Lemma snd_bind {A B} (c : M A) (k : A -> M B) (t : list event) (a : A) :
  c = (t, Normal a) -> snd (bind c k) = snd (k a).
Proof. intros ->. simpl. destruct (k a). reflexivity. Qed.

Lemma snd_bind_lift {A B} (a : A) (k : A -> M B) :
  snd (bind (lift (Normal a)) k) = snd (k a).
Proof. simpl. destruct (k a). reflexivity. Qed.

(** C8. On the string ["r,g,b"] of three integers the [RGB] encoder
    returns the object whose [brightness] is the rounded luma
    [round(0.299*r + 0.587*g + 0.114*b)], whose [state] is ["ON"] when that
    luma is not zero and ["OFF"] when it is, and whose [color] is
    [{r, g, b}]; on ["255,0,0"]: brightness 76, state ["ON"], color
    [{r: 255, g: 0, b: 0}]. *)
Theorem RGB_encode_luma (r g b : Z) (log : list piece -> M unit) :
  returns log ->
  let L := luma (number_of_Z r) (number_of_Z g) (number_of_Z b) in
  snd (RGB_encode log (VString (rgb_string r g b)))
    = Normal (Some (JObject
        [("state", JString (if is_zero L || is_nan L then "OFF" else "ON"));
         ("brightness", json_of_number L);
         ("color", JObject [("r", json_of_number (number_of_Z r));
                            ("g", json_of_number (number_of_Z g));
                            ("b", json_of_number (number_of_Z b))])]))
  /\ snd (RGB_encode log (VString "255,0,0"))
     = Normal (Some (JObject
         [("state", JString "ON");
          ("brightness", JNumber 76);
          ("color", JObject [("r", JNumber 255); ("g", JNumber 0);
                             ("b", JNumber 0)])])).
Proof.
  intros Hlog L. split.
  - unfold RGB_encode.
    change (substitution (VString (rgb_string r g b)))
      with (Normal (Sub (VString (rgb_string r g b)))).
    rewrite snd_bind_lift.
    destruct (Hlog [Lit "RGB encode request: "; Sub (VString (rgb_string r g b))])
      as [t1 H1].
    rewrite (snd_bind _ _ _ _ H1).
    unfold split_message. rewrite split_rgb_string.
    rewrite snd_bind_lift.
    cbn [index nth_error ToNumber].
    rewrite !StringToNumber_numeral.
    rewrite !snd_bind_lift.
    match goal with |- context [log ?line] => destruct (Hlog line) as [t2 H2] end.
    rewrite (snd_bind _ _ _ _ H2). cbn [ret snd].
    subst L. unfold luma. set (L := Math_round _).
    change (ToBoolean (VNumber L)) with (negb (is_zero L || is_nan L)).
    destruct (is_zero L || is_nan L); reflexivity.
  - unfold RGB_encode.
    change (substitution (VString "255,0,0"))
      with (Normal (Sub (VString "255,0,0"))).
    rewrite snd_bind_lift.
    destruct (Hlog [Lit "RGB encode request: "; Sub (VString "255,0,0")])
      as [t1 H1].
    rewrite (snd_bind _ _ _ _ H1).
    change (split_message (VString "255,0,0")) with (Normal ["255"; "0"; "0"]).
    rewrite snd_bind_lift.
    change (ToNumber (index ["255"; "0"; "0"] 0)) with (Normal 255%float).
    change (ToNumber (index ["255"; "0"; "0"] 1)) with (Normal 0%float).
    change (ToNumber (index ["255"; "0"; "0"] 2)) with (Normal 0%float).
    rewrite !snd_bind_lift.
    match goal with |- context [log ?line] => destruct (Hlog line) as [t2 H2] end.
    rewrite (snd_bind _ _ _ _ H2). reflexivity.
Qed.

Lemma RGB_encode_luma_witness :
  snd (RGB_encode host_log (VString (rgb_string 10 200 30)))
    = Normal (Some (JObject
        [("state", JString "ON");
         ("brightness", JNumber 124);
         ("color", JObject [("r", JNumber 10); ("g", JNumber 200);
                            ("b", JNumber 30)])]))
  /\ snd (RGB_encode host_log (VString "255,0,0"))
     = Normal (Some (JObject
         [("state", JString "ON");
          ("brightness", JNumber 76);
          ("color", JObject [("r", JNumber 255); ("g", JNumber 0);
                             ("b", JNumber 0)])])).
Proof. exact (RGB_encode_luma 10 200 30 host_log host_log_returns). Defined.

(* ================================================================== *)
(** * The object returned by [init] *)
(* ================================================================== *)

(** Either method logs its line and then calls [output] once, on the
    message it was given. *)
Lemma function_encode_forwards (message info topic property : value) :
  get info "topic" = Normal topic ->
  get info "property" = Normal property ->
  convertible topic = true -> convertible property = true ->
  convertible message = true ->
  function_encode host_log message info host_output
    = ([Log [Lit "encode() called for topic ["; Sub topic;
             Lit "], property ["; Sub property;
             Lit "] with message ["; Sub message; Lit "]"];
        Output message],
       Normal VUndefined).
Proof.
  intros Ht Hp Ct Cp Cm. unfold function_encode, substitution.
  rewrite Ht, Hp. cbn [obind]. rewrite Ct, Cp, Cm. reflexivity.
Qed.

Lemma function_decode_forwards (message info topic property : value) :
  get info "topic" = Normal topic ->
  get info "property" = Normal property ->
  convertible topic = true -> convertible property = true ->
  convertible message = true ->
  function_decode host_log message info host_output
    = ([Log [Lit "decode() called for topic ["; Sub topic;
             Lit "], property ["; Sub property;
             Lit "] with message ["; Sub message; Lit "]"];
        Output message],
       Normal VUndefined).
Proof.
  intros Ht Hp Ct Cp Cm. unfold function_decode, substitution.
  rewrite Ht, Hp. cbn [obind]. rewrite Ct, Cp, Cm. reflexivity.
Qed.

(** C1, on the code. Whenever [init] returns, the object it returns has
    the two properties [function] and [properties] and no others: it has
    no [encode] and no [decode], and [function] is the second of the two
    methods written in the literal, the one that logs [decode() called]. *)
Theorem init_exposes_function_and_properties
    (conv : converter) (p : params) (t : list event) (o : list (string * member)) :
  init conv p = (t, Normal o) ->
  map fst o = ["function"; "properties"]
  /\ lookup "encode" o = None
  /\ lookup "decode" o = None
  /\ lookup "function" o = Some (Method (function_decode (log p)))
  /\ lookup "properties" o = Some (Properties (properties conv (log p))).
Proof.
  unfold init, substitution.
  destruct (get (config p) "name") as [name | e | ]; cbn;
    [ | discriminate | discriminate].
  destruct (convertible name); cbn; [ | discriminate].
  destruct (log p _) as [t1 [[] | e | ]]; cbn; [ | discriminate | discriminate].
  intros H. injection H as _ <-. repeat split.
Qed.

Lemma init_exposes_function_and_properties_witness :
  init silent_converter lamp_params
    = ([Log [Lit "Trådfri codec initialized with "; Sub (VString "lamp"); Lit "."]],
       Normal [("function", Method (function_decode host_log));
               ("properties", Properties (properties silent_converter host_log))])
  /\ lookup "encode"
       [("function", Method (function_decode host_log));
        ("properties", Properties (properties silent_converter host_log))] = None
  /\ lookup "decode"
       [("function", Method (function_decode host_log));
        ("properties", Properties (properties silent_converter host_log))] = None.
Proof.
  split; [reflexivity | ].
  destruct (init_exposes_function_and_properties silent_converter lamp_params _ _
              eq_refl) as (_ & He & Hd & _).
  split; [exact He | exact Hd].
Defined.

(* ================================================================== *)
(** * Further properties: the generic functions and [init] *)
(* ================================================================== *)

Lemma get_property_of (v : value) (k : string) :
  v <> VUndefined -> v <> VNull -> get v k = Normal (property_of v k).
Proof. intros Hu Hn. destruct v; try reflexivity; contradiction. Qed.

Lemma field_of_defined (message : json) (k : string) :
  field_of message k <> VUndefined -> message <> JNull.
Proof. intros H ->. apply H. reflexivity. Qed.

(** X1. Given an [info] that is neither [undefined] nor [null], and an
    [info.topic], an [info.property] and a message whose conversion to a
    string completes, either generic function makes exactly two calls, in
    this order: [log] with the line that carries [info.topic],
    [info.property] and the message, then [output] with the message
    unchanged; it returns [undefined]. *)
Theorem generic_functions_log_then_forward (message info : value) :
  info <> VUndefined -> info <> VNull ->
  convertible (property_of info "topic") = true ->
  convertible (property_of info "property") = true ->
  convertible message = true ->
  function_encode host_log message info host_output
    = ([Log [Lit "encode() called for topic ["; Sub (property_of info "topic");
             Lit "], property ["; Sub (property_of info "property");
             Lit "] with message ["; Sub message; Lit "]"];
        Output message],
       Normal VUndefined)
  /\ function_decode host_log message info host_output
     = ([Log [Lit "decode() called for topic ["; Sub (property_of info "topic");
              Lit "], property ["; Sub (property_of info "property");
              Lit "] with message ["; Sub message; Lit "]"];
         Output message],
        Normal VUndefined).
Proof.
  intros Hu Hn Ct Cp Cm. unfold function_encode, function_decode, substitution.
  rewrite !(get_property_of info _ Hu Hn). cbn [obind].
  rewrite Ct, Cp, Cm. split; reflexivity.
Qed.

Lemma generic_functions_log_then_forward_witness :
  function_encode host_log (VString "25")
      (VObject [("topic", VString "lamp/set"); ("property", VString "brightness")])
      host_output
    = ([Log [Lit "encode() called for topic ["; Sub (VString "lamp/set");
             Lit "], property ["; Sub (VString "brightness");
             Lit "] with message ["; Sub (VString "25"); Lit "]"];
        Output (VString "25")],
       Normal VUndefined)
  /\ function_decode host_log (VString "25")
       (VObject [("topic", VString "lamp/set"); ("property", VString "brightness")])
       host_output
     = ([Log [Lit "decode() called for topic ["; Sub (VString "lamp/set");
              Lit "], property ["; Sub (VString "brightness");
              Lit "] with message ["; Sub (VString "25"); Lit "]"];
         Output (VString "25")],
        Normal VUndefined).
Proof.
  apply (generic_functions_log_then_forward (VString "25")
           (VObject [("topic", VString "lamp/set");
                     ("property", VString "brightness")]));
    try discriminate; reflexivity.
Defined.

(** X2. Without an [info] ([undefined] or [null]) either generic function
    throws a [TypeError] when it reads [info.topic], before any call:
    neither [log] nor [output] is called, whatever they are. *)
Theorem generic_functions_need_info
    (message info : value) (log : list piece -> M unit) (output : value -> M unit) :
  info = VUndefined \/ info = VNull ->
  function_encode log message info output = ([], Throw TypeError)
  /\ function_decode log message info output = ([], Throw TypeError).
Proof. intros [-> | ->]; split; reflexivity. Qed.

Lemma generic_functions_need_info_witness :
  function_encode host_log (VString "25") VUndefined host_output
    = ([], Throw TypeError)
  /\ function_decode host_log (VString "25") VUndefined host_output
     = ([], Throw TypeError).
Proof.
  apply (generic_functions_need_info (VString "25") VUndefined host_log host_output).
  left. reflexivity.
Defined.

(** X3. When [log] throws, either generic function ends with that throw
    and [output] is not called: the trace is the one of [log] alone.
    ([log] is reached when [info] is there and the three substitutions of
    the line convert.) *)
Theorem generic_functions_stop_at_log
    (message info : value) (log : list piece -> M unit) (output : value -> M unit)
    (t : list event) (e : error) :
  info <> VUndefined -> info <> VNull ->
  convertible (property_of info "topic") = true ->
  convertible (property_of info "property") = true ->
  convertible message = true ->
  (forall line, log line = (t, Throw e)) ->
  function_encode log message info output = (t, Throw e)
  /\ function_decode log message info output = (t, Throw e).
Proof.
  intros Hu Hn Ct Cp Cm Hlog.
  unfold function_encode, function_decode, substitution.
  rewrite !(get_property_of info _ Hu Hn). cbn [obind].
  rewrite Ct, Cp, Cm. cbn [lift bind app].
  rewrite !Hlog. split; reflexivity.
Qed.

Lemma generic_functions_stop_at_log_witness :
  function_encode (fun _ => ([], Throw TypeError)) (VString "25") (VObject [])
      host_output = ([], Throw TypeError)
  /\ function_decode (fun _ => ([], Throw TypeError)) (VString "25") (VObject [])
       host_output = ([], Throw TypeError).
Proof.
  apply (generic_functions_stop_at_log (VString "25") (VObject [])
           (fun _ => ([], Throw TypeError)) host_output [] TypeError);
    try discriminate; reflexivity.
Defined.

(** X4. With a [config] that is neither [undefined] nor [null] and a
    [config.name] whose conversion to a string completes, [init] calls
    [log] exactly once, with the line that carries [config.name]
    ([undefined] when [config] has no name), and returns an object. *)
Theorem init_logs_once (conv : converter) (config : value) :
  config <> VUndefined -> config <> VNull ->
  convertible (property_of config "name") = true ->
  exists o,
    init conv {| log := host_log; config := config |}
      = ([Log [Lit "Trådfri codec initialized with ";
               Sub (property_of config "name"); Lit "."]],
         Normal o).
Proof.
  intros Hu Hn Cn. unfold init, substitution. cbn [Codec.config Codec.log].
  rewrite (get_property_of config _ Hu Hn). cbn [obind]. rewrite Cn.
  eexists. reflexivity.
Qed.

Lemma init_logs_once_witness :
  exists o,
    init silent_converter {| log := host_log; config := VObject [] |}
      = ([Log [Lit "Trådfri codec initialized with "; Sub VUndefined; Lit "."]],
         Normal o).
Proof.
  apply (init_logs_once silent_converter (VObject []));
    try discriminate; reflexivity.
Defined.

(** X5. With [config] [undefined] or [null], [init] throws a [TypeError]
    when it reads [config.name]: [log] is not called and no object is
    returned. *)
Theorem init_needs_config
    (conv : converter) (log : list piece -> M unit) (config : value) :
  config = VUndefined \/ config = VNull ->
  init conv {| log := log; config := config |} = ([], Throw TypeError).
Proof. intros [-> | ->]; reflexivity. Qed.

Lemma init_needs_config_witness :
  init silent_converter {| log := host_log; config := VNull |}
    = ([], Throw TypeError).
Proof. apply (init_needs_config silent_converter host_log VNull). right. reflexivity. Defined.

(** X6. Through the object that [init] returns, the codecs under
    [properties] are reached; there the [on] codec gives every boolean
    back, and the [on], [brightness] and [colorTemperature] codecs never
    call [log], in either direction. *)
Theorem init_properties_codecs
    (conv : converter) (p : params) (t : list event) (o : list (string * member)) :
  init conv p = (t, Normal o) ->
  exists pc,
    lookup "properties" o = Some (Properties pc)
    /\ (forall b : bool,
          exists w, encode (on pc) (VBool b) = ([], Normal (Some w))
                    /\ decode (on pc) w = ([], Normal (VBool b)))
    /\ (forall m, fst (encode (on pc) m) = []
                  /\ fst (encode (brightness pc) m) = []
                  /\ fst (encode (colorTemperature pc) m) = [])
    /\ (forall w, fst (decode (on pc) w) = []
                  /\ fst (decode (brightness pc) w) = []
                  /\ fst (decode (colorTemperature pc) w) = []).
Proof.
  unfold init, substitution.
  destruct (get (config p) "name") as [name | e | ]; cbn;
    [ | discriminate | discriminate].
  destruct (convertible name); cbn; [ | discriminate].
  destruct (log p _) as [t1 [[] | e | ]]; cbn; [ | discriminate | discriminate].
  intros H. injection H as _ <-.
  exists (properties conv (log p)). split; [reflexivity | ].
  split; [ | split; intros; repeat split].
  intros b. exists (JObject [("state", JString (if b then "ON" else "OFF"))]).
  destruct b; split; reflexivity.
Qed.

Lemma init_properties_codecs_witness :
  exists pc,
    lookup "properties"
      [("function", Method (function_decode host_log));
       ("properties", Properties (properties silent_converter host_log))]
      = Some (Properties pc)
    /\ (forall b : bool,
          exists w, encode (on pc) (VBool b) = ([], Normal (Some w))
                    /\ decode (on pc) w = ([], Normal (VBool b)))
    /\ (forall m, fst (encode (on pc) m) = []
                  /\ fst (encode (brightness pc) m) = []
                  /\ fst (encode (colorTemperature pc) m) = [])
    /\ (forall w, fst (decode (on pc) w) = []
                  /\ fst (decode (brightness pc) w) = []
                  /\ fst (decode (colorTemperature pc) w) = []).
Proof.
  exact (init_properties_codecs silent_converter lamp_params _ _ eq_refl).
Defined.

(* ================================================================== *)
(** * Further properties: the property codecs *)
(* ================================================================== *)

(** X7. The [on] encoder coerces its argument to a boolean: for every
    value the message is [{"state": "ON"}] when the value is truthy and
    [{"state": "OFF"}] otherwise, and the decoder returns that truth value
    on it. *)
Theorem on_roundtrip_truthiness (v : value) :
  on_encode v
    = Normal (Some (JObject [("state", JString (if ToBoolean v then "ON" else "OFF"))]))
  /\ decode_after on_encode on_decode v = Normal (VBool (ToBoolean v)).
Proof.
  unfold decode_after, on_encode. cbn. destruct (ToBoolean v); split; reflexivity.
Qed.

(** X8. On a message whose [state] is a string that is not empty, the [on]
    decoder returns whether the string is exactly ["ON"]: every other
    spelling, ["on"] or ["On"] included, is [false]. *)
Theorem on_decode_state_string (message : json) (s : string) :
  field_of message "state" = VString s ->
  s <> "" ->
  on_decode message = Normal (VBool (String.eqb s "ON")).
Proof.
  intros Hf Hs. unfold on_decode.
  rewrite (get_field_of message "state") by
    (apply (field_of_defined message "state"); rewrite Hf; discriminate).
  rewrite Hf. cbn [obind ToBoolean].
  destruct (String.eqb_spec s ""); [contradiction | ]. reflexivity.
Qed.

Lemma on_decode_state_string_witness :
  on_decode (JObject [("state", JString "on"); ("brightness", JNumber 10)])
    = Normal (VBool false).
Proof.
  apply (on_decode_state_string
           (JObject [("state", JString "on"); ("brightness", JNumber 10)]) "on");
    [reflexivity | discriminate].
Defined.

(** X9. A decoder reads its own field only: two messages, neither of them
    the text [null], that agree on [state] ([brightness], [color_temp])
    decode alike under [on] ([brightness], [colorTemperature]); and two
    that agree on [color] and on [brightness] decode alike under [RGB],
    [log] having returned. *)
Theorem decoders_read_their_field (m1 m2 : json) :
  m1 <> JNull -> m2 <> JNull ->
  (field_of m1 "state" = field_of m2 "state" -> on_decode m1 = on_decode m2)
  /\ (field_of m1 "brightness" = field_of m2 "brightness" ->
      brightness_decode m1 = brightness_decode m2)
  /\ (field_of m1 "color_temp" = field_of m2 "color_temp" ->
      colorTemperature_decode m1 = colorTemperature_decode m2)
  /\ (field_of m1 "color" = field_of m2 "color" ->
      field_of m1 "brightness" = field_of m2 "brightness" ->
      forall (conv : converter) (log : list piece -> M unit),
        returns log ->
        snd (RGB_decode conv log m1) = snd (RGB_decode conv log m2)).
Proof.
  intros H1 H2. repeat split.
  - intros H. unfold on_decode. rewrite !get_field_of, H by assumption. reflexivity.
  - intros H. unfold brightness_decode.
    rewrite !get_field_of, H by assumption. reflexivity.
  - intros H. unfold colorTemperature_decode.
    rewrite !get_field_of, H by assumption. reflexivity.
  - intros Hc Hb conv log Hlog. unfold RGB_decode.
    destruct (Hlog [Lit "RGB decode request: "; Wire (Some m1)]) as [t1 E1].
    destruct (Hlog [Lit "RGB decode request: "; Wire (Some m2)]) as [t2 E2].
    rewrite (snd_bind _ _ _ _ E1), (snd_bind _ _ _ _ E2).
    rewrite !get_field_of, Hc, Hb by assumption. reflexivity.
Qed.

Lemma decoders_read_their_field_witness :
  on_decode (JObject [("state", JString "ON")])
    = on_decode (JObject [("state", JString "ON"); ("brightness", JNumber 254)])
  /\ brightness_decode (JObject [("brightness", JNumber 127)])
     = brightness_decode (JObject [("state", JString "ON"); ("brightness", JNumber 127)])
  /\ colorTemperature_decode (JObject [("color_temp", JNumber 300)])
     = colorTemperature_decode
         (JObject [("color_temp", JNumber 300); ("state", JString "OFF")])
  /\ snd (RGB_decode silent_converter host_log (JObject [("state", JString "ON")]))
     = snd (RGB_decode silent_converter host_log (JObject [])).
Proof.
  split; [ | split; [ | split]].
  - apply (decoders_read_their_field
             (JObject [("state", JString "ON")])
             (JObject [("state", JString "ON"); ("brightness", JNumber 254)]));
      [discriminate | discriminate | reflexivity].
  - apply (decoders_read_their_field
             (JObject [("brightness", JNumber 127)])
             (JObject [("state", JString "ON"); ("brightness", JNumber 127)]));
      [discriminate | discriminate | reflexivity].
  - apply (decoders_read_their_field
             (JObject [("color_temp", JNumber 300)])
             (JObject [("color_temp", JNumber 300); ("state", JString "OFF")]));
      [discriminate | discriminate | reflexivity].
  - apply (decoders_read_their_field
             (JObject [("state", JString "ON")]) (JObject []));
      [discriminate | discriminate | reflexivity | reflexivity
      | apply host_log_returns].
Defined.

(** ** Brightness *)

Lemma emitted_field_spec (k : string) (r : outcome (option json)) (n : Z) :
  emitted_field k r = Some n ->
  exists t x, r = Normal (Some t) /\ field_of t k = VNumber x
              /\ Z_of_number x = Some n.
Proof.
  unfold emitted_field. destruct r as [[t | ] | | ]; try discriminate.
  destruct (field_of t k) eqn:E; try discriminate.
  intros H. eauto.
Qed.

Lemma emitted_string_spec (k : string) (r : outcome (option json)) (s : string) :
  emitted_string k r = Some s ->
  exists t, r = Normal (Some t) /\ field_of t k = VString s.
Proof.
  unfold emitted_string. destruct r as [[t | ] | | ]; try discriminate.
  destruct (field_of t k) eqn:E; try discriminate.
  intros [= ->]. eauto.
Qed.

Lemma encode_after_spec dec enc (t u : json) :
  encode_after dec enc t = Normal (Some u) ->
  exists v, dec t = Normal v /\ enc v = Normal (Some u).
Proof.
  unfold encode_after. destruct (dec t) as [v | | ]; try discriminate. eauto.
Qed.

Lemma brightness_exact_table :
  all_range check_brightness_exact 1 100 = true.
Proof. vm_cast_no_check (eq_refl true). Qed.

Lemma brightness_encode_table :
  all_range check_brightness_encode 0 101 = true.
Proof. vm_cast_no_check (eq_refl true). Qed.

Lemma brightness_wire_table :
  all_range check_brightness_wire 1 254 = true.
Proof. vm_cast_no_check (eq_refl true). Qed.

Lemma state_of_brightness_table :
  all_range check_state_of_brightness 0 101 = true.
Proof. vm_cast_no_check (eq_refl true). Qed.

(** X10. The round trip of a brightness is exact: for every integer [v]
    of [1..100] the decoder returns [v] itself on the message the encoder
    emits for [v]. *)
Theorem brightness_roundtrip_exact (v : Z) :
  1 <= v <= 100 ->
  exists t x,
    brightness_encode (VNumber (number_of_Z v)) = Normal (Some t)
    /\ brightness_decode t = Normal (VNumber x)
    /\ Z_of_number x = Some v.
Proof.
  intros Hv.
  assert (H := all_range_spec _ _ _ brightness_exact_table v ltac:(lia)).
  unfold check_brightness_exact in H.
  destruct (returned_int _) as [n | ] eqn:E; [ | discriminate].
  apply Z.eqb_eq in H. subst n.
  destruct (returned_int_spec _ _ E) as (x & Hx & Hz).
  destruct (decode_after_spec _ _ _ _ Hx) as (t & He & Hd).
  exists t, x. auto.
Qed.

Lemma brightness_roundtrip_exact_witness :
  exists t x,
    brightness_encode (VNumber (number_of_Z 75)) = Normal (Some t)
    /\ brightness_decode t = Normal (VNumber x)
    /\ Z_of_number x = Some 75.
Proof. apply (brightness_roundtrip_exact 75). lia. Defined.

(** X11. For every integer [v] of [0..100] the [brightness] encoder emits
    a message whose [brightness] is the integer nearest to [v * 2.54]
    (the greater one on a tie), within [0..254], and whose [state] is
    ["OFF"] for [v = 0] and ["ON"] otherwise. *)
Theorem brightness_encode_scales (v : Z) :
  0 <= v <= 100 ->
  exists t x b,
    brightness_encode (VNumber (number_of_Z v)) = Normal (Some t)
    /\ field_of t "brightness" = VNumber x
    /\ Z_of_number x = Some b
    /\ b = round_div (v * 254) 100
    /\ 0 <= b <= 254
    /\ field_of t "state" = VString (if v =? 0 then "OFF" else "ON").
Proof.
  intros Hv.
  assert (H := all_range_spec _ _ _ brightness_encode_table v ltac:(lia)).
  unfold check_brightness_encode in H.
  destruct (emitted_field _ _) as [b | ] eqn:Eb; [ | discriminate].
  destruct (emitted_string _ _) as [s | ] eqn:Es; [ | discriminate].
  apply andb_prop in H as [Hb Hs].
  apply is_round_div_spec in Hb; [ | lia]. apply String.eqb_eq in Hs.
  destruct (emitted_field_spec _ _ _ Eb) as (t & x & Ht & Hx & Hz).
  destruct (emitted_string_spec _ _ _ Es) as (t' & Ht' & Hst).
  rewrite Ht in Ht'. injection Ht' as <-.
  exists t, x, b. repeat split; auto; try congruence.
  - subst b. unfold round_div. apply Z.div_le_lower_bound; lia.
  - subst b. unfold round_div.
    apply Z.lt_succ_r. apply Z.div_lt_upper_bound; lia.
Qed.

Lemma brightness_encode_scales_witness :
  exists t x b,
    brightness_encode (VNumber (number_of_Z 100)) = Normal (Some t)
    /\ field_of t "brightness" = VNumber x
    /\ Z_of_number x = Some b
    /\ b = round_div (100 * 254) 100
    /\ 0 <= b <= 254
    /\ field_of t "state" = VString (if 100 =? 0 then "OFF" else "ON").
Proof. apply (brightness_encode_scales 100). lia. Defined.

(** X12. From the wire and back: for every integer wire brightness [b] of
    [1..254], encoding what the decoder returns for [b] gives a wire
    brightness within 1 of [b]. *)
Theorem brightness_wire_roundtrip (b : Z) :
  1 <= b <= 254 ->
  exists v t x n,
    brightness_decode (wire_brightness b) = Normal v
    /\ brightness_encode v = Normal (Some t)
    /\ field_of t "brightness" = VNumber x
    /\ Z_of_number x = Some n
    /\ b - 1 <= n <= b + 1.
Proof.
  intros Hb.
  assert (H := all_range_spec _ _ _ brightness_wire_table b ltac:(lia)).
  unfold check_brightness_wire in H.
  destruct (within_one_spec _ _ H) as (n & Hn & Hbound).
  destruct (emitted_field_spec _ _ _ Hn) as (t & x & Ht & Hx & Hz).
  destruct (encode_after_spec _ _ _ _ Ht) as (v & Hd & He).
  exists v, t, x, n. auto.
Qed.

Lemma brightness_wire_roundtrip_witness :
  exists v t x n,
    brightness_decode (wire_brightness 1) = Normal v
    /\ brightness_encode v = Normal (Some t)
    /\ field_of t "brightness" = VNumber x
    /\ Z_of_number x = Some n
    /\ 1 - 1 <= n <= 1 + 1.
Proof. apply (brightness_wire_roundtrip 1). lia. Defined.

(** X13. The [state] that the [brightness] encoder puts in its message is
    the one the [on] decoder reads: for every integer [v] of [0..100] the
    [on] decoder returns [false] on the message for [v = 0] and [true] on
    the message for any other [v]. *)
Theorem on_decode_of_brightness_message (v : Z) :
  0 <= v <= 100 ->
  exists t,
    brightness_encode (VNumber (number_of_Z v)) = Normal (Some t)
    /\ on_decode t = Normal (VBool (negb (v =? 0))).
Proof.
  intros Hv.
  assert (H := all_range_spec _ _ _ state_of_brightness_table v ltac:(lia)).
  unfold check_state_of_brightness, decode_after in H.
  destruct (brightness_encode _) as [[t | ] | | ]; try discriminate.
  destruct (on_decode t) as [[ | | b | | | | ] | | ] eqn:E; try discriminate.
  apply Bool.eqb_prop in H. subst b. exists t. split; [reflexivity | exact E].
Qed.

Lemma on_decode_of_brightness_message_witness :
  exists t,
    brightness_encode (VNumber (number_of_Z 0)) = Normal (Some t)
    /\ on_decode t = Normal (VBool (negb (0 =? 0))).
Proof. apply (on_decode_of_brightness_message 0). lia. Defined.

(** ** Color temperature *)

Lemma colorTemperature_wire_table :
  all_range check_colorTemperature_wire 250 205 = true.
Proof. vm_cast_no_check (eq_refl true). Qed.

Lemma round_div_monotone (p p' q : Z) :
  0 < q -> p <= p' -> round_div p q <= round_div p' q.
Proof.
  intros Hq Hp. unfold round_div. apply Z.div_le_mono; lia.
Qed.

Lemma in_window_of_range (v : Z) : 0 <= v <= 1000 -> in_window v.
Proof. unfold in_window, window_lo, window_size. lia. Qed.

(** X14. Values in range stay in range: an integer of the native range
    [140..500] is encoded to a [color_temp] of the vendor range
    [250..454], and an integer [color_temp] of [250..454] is decoded to a
    value of [140..500]. *)
Theorem colorTemperature_ranges (v c : Z) :
  140 <= v <= 500 -> 250 <= c <= 454 ->
  (exists x n,
     colorTemperature_encode (VNumber (number_of_Z v))
       = Normal (Some (JObject [("color_temp", JNumber x)]))
     /\ Z_of_number x = Some n /\ 250 <= n <= 454)
  /\ (exists x n,
        colorTemperature_decode (wire_color_temp c) = Normal (VNumber x)
        /\ Z_of_number x = Some n /\ 140 <= n <= 500).
Proof.
  intros Hv Hc. split.
  - destruct (colorTemperature_encode_exact v) as (x & Hx & Hz);
      [apply in_window_of_range; lia | ].
    exists x, (color_temp_exact v). repeat split; auto.
    + unfold color_temp_exact, round_div. apply Z.div_le_lower_bound; lia.
    + unfold color_temp_exact, round_div.
      apply Z.lt_succ_r. apply Z.div_lt_upper_bound; lia.
  - destruct (colorTemperature_decode_exact c) as (x & Hx & Hz);
      [apply in_window_of_range; lia | lia | ].
    exists x, (mired_exact c). repeat split; auto.
    + unfold mired_exact, round_div. apply Z.div_le_lower_bound; lia.
    + unfold mired_exact, round_div.
      apply Z.lt_succ_r. apply Z.div_lt_upper_bound; lia.
Qed.

Lemma colorTemperature_ranges_witness :
  (exists x n,
     colorTemperature_encode (VNumber (number_of_Z 500))
       = Normal (Some (JObject [("color_temp", JNumber x)]))
     /\ Z_of_number x = Some n /\ 250 <= n <= 454)
  /\ (exists x n,
        colorTemperature_decode (wire_color_temp 250) = Normal (VNumber x)
        /\ Z_of_number x = Some n /\ 140 <= n <= 500).
Proof. apply (colorTemperature_ranges 500 250); lia. Defined.

(** X15. Both rescalings keep the order of integers of the window: a
    greater native value is never encoded to a smaller [color_temp], and a
    greater [color_temp] (zero apart) is never decoded to a smaller
    value. *)
Theorem colorTemperature_monotone (v w c d : Z) :
  in_window v -> in_window w -> v <= w ->
  in_window c -> in_window d -> c <> 0 -> d <> 0 -> c <= d ->
  (exists x y m n,
     colorTemperature_encode (VNumber (number_of_Z v))
       = Normal (Some (JObject [("color_temp", JNumber x)]))
     /\ colorTemperature_encode (VNumber (number_of_Z w))
        = Normal (Some (JObject [("color_temp", JNumber y)]))
     /\ Z_of_number x = Some m /\ Z_of_number y = Some n /\ m <= n)
  /\ (exists x y m n,
        colorTemperature_decode (wire_color_temp c) = Normal (VNumber x)
        /\ colorTemperature_decode (wire_color_temp d) = Normal (VNumber y)
        /\ Z_of_number x = Some m /\ Z_of_number y = Some n /\ m <= n).
Proof.
  intros Hv Hw Hvw Hc Hd Hc0 Hd0 Hcd. split.
  - destruct (colorTemperature_encode_exact v Hv) as (x & Hx & Hxz).
    destruct (colorTemperature_encode_exact w Hw) as (y & Hy & Hyz).
    exists x, y, (color_temp_exact v), (color_temp_exact w).
    repeat split; auto. unfold color_temp_exact.
    apply round_div_monotone; lia.
  - destruct (colorTemperature_decode_exact c Hc Hc0) as (x & Hx & Hxz).
    destruct (colorTemperature_decode_exact d Hd Hd0) as (y & Hy & Hyz).
    exists x, y, (mired_exact c), (mired_exact d).
    repeat split; auto. unfold mired_exact.
    apply round_div_monotone; lia.
Qed.

Lemma colorTemperature_monotone_witness :
  (exists x y m n,
     colorTemperature_encode (VNumber (number_of_Z 141))
       = Normal (Some (JObject [("color_temp", JNumber x)]))
     /\ colorTemperature_encode (VNumber (number_of_Z 142))
        = Normal (Some (JObject [("color_temp", JNumber y)]))
     /\ Z_of_number x = Some m /\ Z_of_number y = Some n /\ m <= n)
  /\ (exists x y m n,
        colorTemperature_decode (wire_color_temp 300) = Normal (VNumber x)
        /\ colorTemperature_decode (wire_color_temp 301) = Normal (VNumber y)
        /\ Z_of_number x = Some m /\ Z_of_number y = Some n /\ m <= n).
Proof.
  apply (colorTemperature_monotone 141 142 300 301);
    unfold in_window, window_lo, window_size; lia.
Defined.

(** X16. From the wire and back the color temperature is exact: for every
    integer [color_temp] [c] of the vendor range [250..454], encoding what
    the decoder returns for [c] gives [c] again. *)
Theorem colorTemperature_wire_roundtrip (c : Z) :
  250 <= c <= 454 ->
  exists v t x,
    colorTemperature_decode (wire_color_temp c) = Normal v
    /\ colorTemperature_encode v = Normal (Some t)
    /\ field_of t "color_temp" = VNumber x
    /\ Z_of_number x = Some c.
Proof.
  intros Hc.
  assert (H := all_range_spec _ _ _ colorTemperature_wire_table c ltac:(lia)).
  unfold check_colorTemperature_wire in H.
  destruct (emitted_field _ _) as [n | ] eqn:E; [ | discriminate].
  apply Z.eqb_eq in H. subst n.
  destruct (emitted_field_spec _ _ _ E) as (t & x & Ht & Hx & Hz).
  destruct (encode_after_spec _ _ _ _ Ht) as (v & Hd & He).
  exists v, t, x. auto.
Qed.

Lemma colorTemperature_wire_roundtrip_witness :
  exists v t x,
    colorTemperature_decode (wire_color_temp 370) = Normal v
    /\ colorTemperature_encode v = Normal (Some t)
    /\ field_of t "color_temp" = VNumber x
    /\ Z_of_number x = Some 370.
Proof. apply (colorTemperature_wire_roundtrip 370). lia. Defined.

(** ** RGB *)

Lemma channel_string_table :
  all_range check_channel_string 0 256 = true.
Proof. vm_cast_no_check (eq_refl true). Qed.

Lemma Number_toString_channel (k : Z) :
  0 <= k <= 255 -> Number_toString (number_of_Z k) = Normal (numeral k).
Proof.
  intros Hk.
  assert (H := all_range_spec _ _ _ channel_string_table k ltac:(lia)).
  unfold check_channel_string in H.
  destruct (Number_toString _) as [s | | ]; try discriminate.
  apply String.eqb_eq in H. congruence.
Qed.

(** What the encoder returns once its message is split and converted. *)
Lemma RGB_encode_parts (log : list piece -> M unit) (s : string)
    (R G B : number) :
  returns log ->
  ToNumber (index (split s) 0) = Normal R ->
  ToNumber (index (split s) 1) = Normal G ->
  ToNumber (index (split s) 2) = Normal B ->
  snd (RGB_encode log (VString s)) = Normal (rgb_message R G B).
Proof.
  intros Hlog HR HG HB. unfold RGB_encode.
  change (substitution (VString s)) with (Normal (Sub (VString s))).
  rewrite snd_bind_lift.
  destruct (Hlog [Lit "RGB encode request: "; Sub (VString s)]) as [t1 H1].
  rewrite (snd_bind _ _ _ _ H1). unfold split_message.
  rewrite snd_bind_lift, HR, snd_bind_lift, HG, snd_bind_lift, HB, snd_bind_lift.
  match goal with |- context [log ?line] => destruct (Hlog line) as [t2 H2] end.
  rewrite (snd_bind _ _ _ _ H2). reflexivity.
Qed.

(** X17. The [RGB] encoder reads the first three components only: what
    follows a third comma does not change the message it returns. *)
Theorem RGB_encode_ignores_rest (r g b : Z) (rest : string)
    (log : list piece -> M unit) :
  returns log ->
  snd (RGB_encode log
         (VString (numeral r ++ "," ++ numeral g ++ "," ++ numeral b
                   ++ "," ++ rest)))
  = snd (RGB_encode log (VString (rgb_string r g b))).
Proof.
  intros Hlog.
  rewrite (RGB_encode_parts log (rgb_string r g b)
             (number_of_Z r) (number_of_Z g) (number_of_Z b) Hlog);
    try (rewrite split_rgb_string; apply StringToNumber_numeral).
  apply RGB_encode_parts; [exact Hlog | | | ];
    change (numeral r ++ "," ++ numeral g ++ "," ++ numeral b ++ "," ++ rest)%string
      with (numeral r ++ String "," (numeral g ++ String ","
              (numeral b ++ String "," rest)))%string;
    rewrite (split_append _ _ (numeral_no_comma r)),
            (split_append _ _ (numeral_no_comma g)),
            (split_append _ _ (numeral_no_comma b));
    apply StringToNumber_numeral.
Qed.

Lemma RGB_encode_ignores_rest_witness :
  snd (RGB_encode host_log
         (VString (numeral 255 ++ "," ++ numeral 128 ++ "," ++ numeral 0
                   ++ "," ++ "0.5")))
  = snd (RGB_encode host_log (VString (rgb_string 255 128 0))).
Proof. exact (RGB_encode_ignores_rest 255 128 0 "0.5" host_log host_log_returns). Defined.

(** X18. The [RGB] encoder needs a string: on any other value it throws
    a [TypeError] and returns nothing. When the value converts to a string
    the request has been logged, and the throw comes from the call of
    [split]; when it does not, the throw comes from the request line and
    [log] is not called at all. No response is ever logged. *)
Theorem RGB_encode_needs_string (message : value) :
  (forall s, message <> VString s) ->
  RGB_encode host_log message
    = (if convertible message
       then [Log [Lit "RGB encode request: "; Sub message]]
       else [],
       Throw TypeError).
Proof.
  intros H. unfold RGB_encode, substitution.
  destruct (convertible message); [ | reflexivity].
  destruct message; try reflexivity. exfalso. apply (H s). reflexivity.
Qed.

Lemma RGB_encode_needs_string_witness :
  RGB_encode host_log (VObject [("toString", VNumber 1)]) = ([], Throw TypeError)
  /\ RGB_encode host_log (VNumber 255)
     = ([Log [Lit "RGB encode request: "; Sub (VNumber 255)]], Throw TypeError).
Proof.
  split.
  - apply (RGB_encode_needs_string (VObject [("toString", VNumber 1)])).
    discriminate.
  - apply (RGB_encode_needs_string (VNumber 255)). discriminate.
Defined.

(** X19. Whenever the [RGB] encoder returns, it has made exactly two calls
    of [log]: the first with the request, its argument, and the second
    with the response, which is the very message it returns. *)
Theorem RGB_encode_logs_what_it_returns
    (message : value) (t : list event) (response : option json) :
  RGB_encode host_log message = (t, Normal response) ->
  t = [Log [Lit "RGB encode request: "; Sub message];
       Log [Lit "RGB encode response: "; Wire response]].
Proof.
  unfold RGB_encode, substitution.
  destruct message; try (destruct (convertible _); discriminate).
  unfold split_message. cbn [convertible host_log bind lift app].
  destruct (ToNumber (index (split s) 0)) as [R | | ]; try discriminate.
  destruct (ToNumber (index (split s) 1)) as [G | | ]; try discriminate.
  destruct (ToNumber (index (split s) 2)) as [B | | ]; try discriminate.
  cbn [host_log bind lift app ret]. intros [= <- <-]. reflexivity.
Qed.

Lemma RGB_encode_logs_what_it_returns_witness :
  fst (RGB_encode host_log (VString "255,0,0"))
  = [Log [Lit "RGB encode request: "; Sub (VString "255,0,0")];
     Log [Lit "RGB encode response: ";
          Wire (Some (JObject
            [("state", JString "ON"); ("brightness", JNumber 76);
             ("color", JObject [("r", JNumber 255); ("g", JNumber 0);
                                ("b", JNumber 0)])]))]].
Proof.
  apply (RGB_encode_logs_what_it_returns (VString "255,0,0") _
           (Some (JObject
              [("state", JString "ON"); ("brightness", JNumber 76);
               ("color", JObject [("r", JNumber 255); ("g", JNumber 0);
                                  ("b", JNumber 0)])]))).
  reflexivity.
Defined.

(** X20. With a truthy [color], the [RGB] decoder logs the request, hands
    [color.x], [color.y] and the message's [brightness] to the converter,
    and returns the converter's three channels, integers of [0..255],
    joined by commas: the string ["r,g,b"] that the encoder reads. *)
Theorem RGB_decode_joins_channels
    (message : json) (conv : converter) (r g b : Z) :
  ToBoolean (field_of message "color") = true ->
  conv (property_of (field_of message "color") "x")
       (property_of (field_of message "color") "y")
       (field_of message "brightness")
    = Normal (VArray [VNumber (number_of_Z r); VNumber (number_of_Z g);
                      VNumber (number_of_Z b)]) ->
  0 <= r <= 255 -> 0 <= g <= 255 -> 0 <= b <= 255 ->
  RGB_decode conv host_log message
    = ([Log [Lit "RGB decode request: "; Wire (Some message)]],
       Normal (VString (rgb_string r g b))).
Proof.
  intros Hc Hconv Hr Hg Hb.
  assert (Hm : message <> JNull) by (intros ->; discriminate Hc).
  assert (Hu : field_of message "color" <> VUndefined)
    by (intros E; rewrite E in Hc; discriminate Hc).
  assert (Hn : field_of message "color" <> VNull)
    by (intros E; rewrite E in Hc; discriminate Hc).
  unfold RGB_decode. cbn [host_log bind lift app].
  rewrite !(get_field_of _ _ Hm). cbn [obind]. rewrite Hc.
  rewrite !(get_property_of _ _ Hu Hn). rewrite Hconv.
  cbn [join map sequence ToString obind].
  rewrite (Number_toString_channel r Hr), (Number_toString_channel g Hg),
          (Number_toString_channel b Hb).
  reflexivity.
Qed.

Lemma RGB_decode_joins_channels_witness :
  RGB_decode
    (fun _ _ _ => Normal (VArray [VNumber (number_of_Z 255);
                                  VNumber (number_of_Z 128);
                                  VNumber (number_of_Z 0)]))
    host_log
    (JObject [("brightness", JNumber 254);
              ("color", JObject [("x", JNumber 0.5); ("y", JNumber 0.4)])])
  = ([Log [Lit "RGB decode request: ";
           Wire (Some (JObject [("brightness", JNumber 254);
                   ("color", JObject [("x", JNumber 0.5); ("y", JNumber 0.4)])]))]],
     Normal (VString (rgb_string 255 128 0))).
Proof.
  apply (RGB_decode_joins_channels
           (JObject [("brightness", JNumber 254);
                     ("color", JObject [("x", JNumber 0.5); ("y", JNumber 0.4)])])
           (fun _ _ _ => Normal (VArray [VNumber (number_of_Z 255);
                                         VNumber (number_of_Z 128);
                                         VNumber (number_of_Z 0)]))
           255 128 0); try reflexivity; lia.
Defined.

(* ================================================================== *)
(** * Conversions to a string *)
(* ================================================================== *)

(** [convertible] decides the completion of [ToString]: where [ToString]
    returns, the value is convertible, and where it throws, it is not. *)
Lemma Number_toString_never_throws (n : number) (e : error) :
  Number_toString n <> Throw e.
Proof.
  unfold Number_toString.
  destruct (is_nan n); [discriminate | ].
  destruct (is_infinity n); [discriminate | ].
  destruct (Z_of_number n) as [z | ]; [ | discriminate].
  destruct (Z.abs z <? 10 ^ 21); discriminate.
Qed.

Lemma ToString_convertible (v : value) :
  (forall s, ToString v = Normal s -> convertible v = true)
  /\ (forall e, ToString v = Throw e -> convertible v = false).
Proof.
  revert v. fix IH 1. intros v.
  destruct v as [ | | b | n | s | l | fields]; cbn [ToString convertible].
  - split; [reflexivity | discriminate].
  - split; [reflexivity | discriminate].
  - split; [reflexivity | discriminate].
  - split; [reflexivity | ]. intros e H. destruct (Number_toString_never_throws n e H).
  - split; [reflexivity | discriminate].
  - assert (H : (forall parts,
                   sequence (map (fun e => match e with
                                           | VUndefined | VNull => Normal ""
                                           | _ => ToString e
                                           end) l) = Normal parts ->
                   forallb (fun e => match e with
                                     | VUndefined | VNull => true
                                     | _ => convertible e
                                     end) l = true)
                /\ (forall e,
                      sequence (map (fun e => match e with
                                              | VUndefined | VNull => Normal ""
                                              | _ => ToString e
                                              end) l) = Throw e ->
                      forallb (fun e => match e with
                                        | VUndefined | VNull => true
                                        | _ => convertible e
                                        end) l = false)).
    { revert l. fix IHl 1. intros l. destruct l as [ | x l]; cbn [map sequence forallb].
      - split; [reflexivity | discriminate].
      - destruct (IHl l) as [Hn Ht]. destruct (IH x) as [Hxn Hxt].
        assert (Hx : (forall s, match x with
                                | VUndefined | VNull => Normal ""
                                | _ => ToString x
                                end = Normal s ->
                                match x with
                                | VUndefined | VNull => true
                                | _ => convertible x
                                end = true)
                     /\ (forall e, match x with
                                   | VUndefined | VNull => Normal ""
                                   | _ => ToString x
                                   end = Throw e ->
                                   match x with
                                   | VUndefined | VNull => true
                                   | _ => convertible x
                                   end = false)).
        { destruct x; (split; [try reflexivity | try discriminate]); auto. }
        destruct Hx as [Hxn' Hxt'].
        destruct (match x with
                  | VUndefined | VNull => Normal ""
                  | _ => ToString x
                  end) as [sx | ex | ] eqn:Ex; cbn [obind].
        + rewrite (Hxn' sx eq_refl). cbn [andb].
          destruct (sequence _) as [ps | e' | ] eqn:Es; cbn [obind].
          * split; [intros; apply (Hn ps); reflexivity | discriminate].
          * split; [discriminate | intros e0 _; apply (Ht e'); reflexivity].
          * split; discriminate.
        + rewrite (Hxt' ex eq_refl). split; [discriminate | reflexivity].
        + split; discriminate. }
    destruct H as [Hn Ht]. split.
    + intros s. destruct (sequence _) as [ps | e' | ]; cbn [obind]; try discriminate.
      intros _. apply (Hn ps). reflexivity.
    + intros e. destruct (sequence _) as [ps | e' | ]; cbn [obind]; try discriminate.
      intros _. apply (Ht e'). reflexivity.
  - destruct (lookup "toString" fields); split; try discriminate; reflexivity.
Qed.

(** An object with an own [toString] stops every conversion: the generic
    functions, [init] and the [RGB] encoder throw while they build their
    line, before [log] or [output] is called, and so do the arithmetic of
    the [brightness] codec and the comparison of the [on] decoder. *)
Example unconvertible_substitutions :
  function_encode host_log (VObject [("toString", VNumber 1)])
      (VObject [("topic", VString "lamp/set")]) host_output
    = ([], Throw TypeError)
  /\ function_decode host_log (VString "25")
       (VObject [("topic", VObject [("toString", VNumber 1)])]) host_output
     = ([], Throw TypeError)
  /\ init silent_converter
       {| log := host_log;
          config := VObject [("name", VObject [("toString", VNumber 1)])] |}
     = ([], Throw TypeError)
  /\ RGB_encode host_log (VObject [("toString", VNumber 1)])
     = ([], Throw TypeError)
  /\ brightness_encode (VObject [("toString", VNumber 1)]) = Throw TypeError
  /\ brightness_decode
       (JObject [("brightness", JObject [("toString", JNumber 1)])])
     = Throw TypeError
  /\ on_decode (JObject [("state", JObject [("toString", JNumber 1)])])
     = Throw TypeError
  /\ on_decode (JObject [("state", JObject [])]) = Normal (VBool false).
Proof. repeat split; reflexivity. Qed.
